(** * GIM_diag: CAN diagnostic client for a GIM6010 motor controller

    A shallow embedding of [src/GIM_diag.py] (class [Gim6010CANDiagnostic])
    and the properties of it that the specification states.

    Conventions of the embedding.
    - Python integers that occur in the client (node id, command ids,
      arbitration ids, payload bytes, decoded error words) are naturals:
      they are [N], and [<<], [|] are [N.shiftl], [N.lor].
    - The clock [time.time()] is a count of milliseconds in [N], so the
      source's 1, 3, 15 and 20 seconds are 1000, 3000, 15000 and 20000.  It
      moves only while the client blocks in [bus.recv] or [time.sleep].
    - The bus is the external collaborator.  What it delivers is a script:
      the outcome of each successive [bus.recv(timeout=1)] call, as the time
      the call blocked and the frame it returned ([None] when it returned
      nothing).  Once the script is used up the bus is silent: every further
      receive blocks for its whole timeout and returns [None].
    - Frames handed to [bus.send] are appended to the log [sent]; sending
      takes no time and does not fail.  Payload values are kept as the
      client passes them; the checks [can.Message] makes on them belong to
      the transport library.
    - A received [can.Message] is truthy, so [if msg] tests for [None].
    - Uncaught Python exceptions ([IndexError] from [msg.data[i]],
      [struct.error] from [struct.unpack]) are results [Raise e]; they
      propagate through every caller, as no method of the class catches.
    - Console output ([print]) is not modelled. *)

From Stdlib Require Import NArith ZArith List Bool Lia.
From Equations Require Import Equations.
From Equations.Prop Require Import Logic.
Import ListNotations.
Open Scope N_scope.

(** ** Frames: [can.Message] *)

Record Message : Type := mkMessage {
  arbitration_id : N;
  data : list N;
  is_extended_id : bool
}.

(** ** The world the client runs in *)

Record World : Type := mkWorld {
  now : N;
  inbox : list (N * option Message);
  sent : list Message
}.

Definition set_now (t : N) (w : World) : World :=
  mkWorld t (inbox w) (sent w).

(** ** Exceptions and the state-and-error monad *)

Inductive exn : Type :=
| IndexError
| StructError.

Inductive result (A : Type) : Type :=
| Ok (a : A)
| Raise (e : exn).
Arguments Ok {A} a.
Arguments Raise {A} e.

Definition M (A : Type) : Type := World -> result A * World.

Definition ret {A : Type} (a : A) : M A := fun w => (Ok a, w).

Definition bind {A B : Type} (c : M A) (k : A -> M B) : M B :=
  fun w =>
    match c w with
    | (Ok a, w') => k a w'
    | (Raise e, w') => (Raise e, w')
    end.

Declare Scope py_scope.
Delimit Scope py_scope with py.
Notation "x <- c ;; k" := (bind c (fun x => k))
  (at level 61, c at next level, right associativity) : py_scope.
Notation "c ;;; k" := (bind c (fun _ => k))
  (at level 61, right associativity) : py_scope.
Open Scope py_scope.

(** Lifting a pure partial computation (something that may raise but does
    not touch the world). *)
Definition lift {A : Type} (r : result A) : M A := fun w => (r, w).

(** ** Primitives of the environment *)

(** [time.time()] *)
Definition time_time : M N := fun w => (Ok (now w), w).

(** [time.sleep(d)], [d] in milliseconds. *)
Definition time_sleep (d : N) : M unit :=
  fun w => (Ok tt, set_now (now w + d) w).

(** [self.bus.send(msg)] *)
Definition bus_send (msg : Message) : M unit :=
  fun w => (Ok tt, mkWorld (now w) (inbox w) (sent w ++ [msg])).

(** [self.bus.recv(timeout)], [timeout] in milliseconds: the next outcome
    of the script, or a full timeout with nothing on a silent bus. *)
Definition recv (timeout : N) (w : World) : option Message * World :=
  match inbox w with
  | [] => (None, set_now (now w + timeout) w)
  | (dt, m) :: rest => (m, mkWorld (now w + dt) rest (sent w))
  end.

(** ** Payload access *)

(** [d[i]] on a [bytearray]. *)
Definition get_item (d : list N) (i : nat) : result N :=
  match nth_error d i with
  | Some b => Ok b
  | None => Raise IndexError
  end.

(** [d[lo:hi]] *)
Definition slice (d : list N) (lo hi : nat) : list N :=
  firstn (hi - lo) (skipn lo d).

(** The little-endian value of a byte string. *)
Fixpoint le_value (bs : list N) : N :=
  match bs with
  | [] => 0
  | b :: rest => b + 256 * le_value rest
  end.

(** [struct.unpack('<I', bs)[0]]: exactly four bytes or [struct.error]. *)
Definition unpack_I (bs : list N) : result N :=
  if Nat.eqb (length bs) 4 then Ok (le_value bs) else Raise StructError.

(** [struct.unpack('<Q', bs)[0]]: exactly eight bytes or [struct.error]. *)
Definition unpack_Q (bs : list N) : result N :=
  if Nat.eqb (length bs) 8 then Ok (le_value bs) else Raise StructError.

(** [struct.unpack('<f', bs)[0]]: exactly four bytes or [struct.error].
    The float is kept as its 32-bit pattern; nothing below reads its
    value. *)
Definition unpack_f (bs : list N) : result N :=
  if Nat.eqb (length bs) 4 then Ok (le_value bs) else Raise StructError.

(** Progress measure of the timed loops: outcomes left in the script plus
    milliseconds left to the deadline [d]. *)
Definition budget (d : N) (w : World) : nat :=
  (length (inbox w) + N.to_nat (d - now w))%nat.

Lemma recv_budget (d : N) (w : World) :
  now w < d -> (budget d (snd (recv 1000 w)) < budget d w)%nat.
Proof.
  unfold budget, recv, set_now.
  destruct (inbox w) as [|[dt m] rest]; cbn [snd fst inbox now length]; lia.
Qed.

Lemma recv_budget_le (d timeout : N) (w : World) :
  (budget d (snd (recv timeout w)) <= budget d w)%nat.
Proof.
  unfold budget, recv, set_now.
  destruct (inbox w) as [|[dt m] rest]; cbn [snd fst inbox now length]; lia.
Qed.

Section Client.

(** [self.node_id], fixed at construction. *)
Variable node_id : N.

(** [can_id = (self.node_id << 5) | cmd_id] *)
Definition can_id_of (cmd_id : N) : N := N.lor (N.shiftl node_id 5) cmd_id.

(** [send_command(cmd_id, data=None)] *)
Definition send_command (cmd_id : N) (payload : option (list N)) : M unit :=
  let can_id := can_id_of cmd_id in
  let payload :=
    match payload with
    | None => repeat 0 8
    | Some d => d
    end in
  let msg := mkMessage can_id payload false in
  bus_send msg.

(** The loop of [wait_for_message]:
    [while time.time() - start_time < timeout:
         msg = self.bus.recv(timeout=1)
         if msg and msg.arbitration_id == can_id: return msg
     return None] *)
Equations? wait_loop (can_id start_time timeout : N) (w : World)
  : option Message * World
  by wf (budget (start_time + timeout) w) lt :=
wait_loop can_id start_time timeout w
    with inspect (now w - start_time <? timeout) := {
  | exist _ false _ => (None, w)
  | exist _ true Hc with inspect (recv 1000 w) := {
    | exist _ (None, w') Hr => wait_loop can_id start_time timeout w'
    | exist _ (Some msg, w') Hr with arbitration_id msg =? can_id := {
      | true => (Some msg, w')
      | false => wait_loop can_id start_time timeout w' } } }.
Proof.
  all: replace w' with (snd (recv 1000 w)) by (now rewrite Hr).
  all: apply recv_budget; apply N.ltb_lt in Hc; lia.
Qed.

(** [wait_for_message(cmd_id, timeout)]; [None] is the timeout.  Every
    call of the source passes [timeout], its default is never used. *)
Definition wait_for_message (cmd_id timeout : N) : M (option Message) :=
  fun w =>
    let can_id := can_id_of cmd_id in
    let start_time := now w in
    let r := wait_loop can_id start_time timeout w in
    (Ok (fst r), snd r).

(** The loop written as the one equation it satisfies. *)
Lemma wait_loop_eq (can_id start_time timeout : N) (w : World) :
  wait_loop can_id start_time timeout w =
  if now w - start_time <? timeout
  then match recv 1000 w with
       | (Some msg, w') =>
           if arbitration_id msg =? can_id
           then (Some msg, w')
           else wait_loop can_id start_time timeout w'
       | (None, w') => wait_loop can_id start_time timeout w'
       end
  else (None, w).
Proof.
  funelim (wait_loop can_id start_time timeout w);
    repeat match goal with
           | H : _ = true |- _ => rewrite H
           | H : _ = false |- _ => rewrite H
           | H : recv _ _ = _ |- _ => rewrite H
           end; reflexivity.
Qed.

(** Each turn of the loop either uses up one outcome of the script or, on
    a silent bus, a full second; so a wait never moves away from a deadline,
    and one that starts inside its window moves strictly towards it. *)
Lemma wait_loop_budget_le (d can_id start_time timeout : N) (w : World) :
  (budget d (snd (wait_loop can_id start_time timeout w)) <= budget d w)%nat.
Proof.
  funelim (wait_loop can_id start_time timeout w); cbn [snd]; try lia.
  all: match goal with
       | Hr : recv 1000 ?w = (_, ?w') |- _ =>
           pose proof (recv_budget_le d 1000 w) as Hle;
           rewrite Hr in Hle; cbn [snd] in Hle
       end.
  all: try lia.
  all: match goal with
       | IH : forall d, (budget d (snd (wait_loop _ _ _ ?w')) <= _)%nat |- _ =>
           specialize (IH d); lia
       end.
Qed.

Lemma wait_loop_budget_lt (d can_id start_time timeout : N) (w : World) :
  now w - start_time < timeout -> now w < d ->
  (budget d (snd (wait_loop can_id start_time timeout w)) < budget d w)%nat.
Proof.
  intros Hc Hd. rewrite wait_loop_eq.
  apply N.ltb_lt in Hc. rewrite Hc.
  pose proof (recv_budget d w Hd) as Hlt.
  destruct (recv 1000 w) as [[msg|] w']; cbn [snd] in Hlt.
  - destruct (arbitration_id msg =? can_id); cbn [snd]; [lia|].
    pose proof (wait_loop_budget_le d can_id start_time timeout w'). lia.
  - pose proof (wait_loop_budget_le d can_id start_time timeout w'). lia.
Qed.

(** [get_heartbeat()]: the pair [(axis_state, error)], or [(None, None)]. *)
Definition get_heartbeat : M (option N * option N) :=
  msg <- wait_for_message 0x001 3000 ;;
  match msg with
  | Some msg =>
      axis_state <- lift (get_item (data msg) 4) ;;
      flags <- lift (get_item (data msg) 5) ;;
      error <- lift (unpack_I (slice (data msg) 0 4)) ;;
      ret (Some axis_state, Some error)
  | None => ret (None, None)
  end.

(** [get_errors(error_type)] *)
Definition get_errors (error_type : N) : M N :=
  send_command 0x003 (Some [error_type; 0; 0; 0; 0; 0; 0; 0]) ;;;
  msg <- wait_for_message 0x003 3000 ;;
  match msg with
  | Some msg =>
      error <-
        (if error_type =? 0 then lift (unpack_I (slice (data msg) 0 4))
         else if error_type =? 1 then lift (unpack_Q (slice (data msg) 0 8))
         else lift (unpack_I (slice (data msg) 0 4))) ;;
      ret error
  | None => ret 0
  end.

(** The surveillance loop shared by the two calibration tests:
    [while time.time() - start_time < limit:
         msg = self.wait_for_message(0x001, timeout=1)
         if msg:
             axis_state = msg.data[4]
             if axis_state == 1: success = True; break
             elif axis_state == <in progress>: print(...)]
    The result is the value of [success] when the loop is left.  The two
    loops of the source differ in [limit] and in the state whose sighting
    is printed, which changes nothing. *)
Equations? poll_loop (start_time limit : N) (w : World)
  : result bool * World
  by wf (budget (start_time + limit) w) lt :=
poll_loop start_time limit w
    with inspect (now w - start_time <? limit) := {
  | exist _ false _ => (Ok false, w)
  | exist _ true Hc with inspect (wait_for_message 0x001 1000 w) := {
    | exist _ (Raise e, w') Hr => (Raise e, w')
    | exist _ (Ok None, w') Hr => poll_loop start_time limit w'
    | exist _ (Ok (Some msg), w') Hr with get_item (data msg) 4 := {
      | Raise e => (Raise e, w')
      | Ok axis_state with axis_state =? 1 := {
        | true => (Ok true, w')
        | false => poll_loop start_time limit w' } } } }.
Proof.
  all: apply N.ltb_lt in Hc.
  all: apply wait_loop_budget_lt; [rewrite N.sub_diag|]; lia.
Qed.

(** [test_motor_calibration()] *)
Definition test_motor_calibration : M bool :=
  send_command 0x007 (Some [4; 0; 0; 0; 0; 0; 0; 0]) ;;;
  start_time <- time_time ;;
  success <- poll_loop start_time 15000 ;;
  (if negb success
   then send_command 0x007 (Some [1; 0; 0; 0; 0; 0; 0; 0])
   else ret tt) ;;;
  ret success.

(** [test_encoder_calibration()] *)
Definition test_encoder_calibration : M bool :=
  send_command 0x007 (Some [7; 0; 0; 0; 0; 0; 0; 0]) ;;;
  start_time <- time_time ;;
  success <- poll_loop start_time 20000 ;;
  (if negb success
   then send_command 0x007 (Some [1; 0; 0; 0; 0; 0; 0; 0])
   else ret tt) ;;;
  ret success.

(** [get_encoder_estimates()]: the pair [(pos, vel)], or [(None, None)]. *)
Definition get_encoder_estimates : M (option N * option N) :=
  send_command 0x009 None ;;;
  msg <- wait_for_message 0x009 3000 ;;
  match msg with
  | Some msg =>
      pos <- lift (unpack_f (slice (data msg) 0 4)) ;;
      vel <- lift (unpack_f (slice (data msg) 4 8)) ;;
      ret (Some pos, Some vel)
  | None => ret (None, None)
  end.

(** [save_and_reboot()] *)
Definition save_and_reboot : M unit :=
  send_command 0x01F None ;;;
  time_sleep 3000 ;;;
  send_command 0x016 None ;;;
  time_sleep 3000.

(** [full_diagnostic()] *)
Definition full_diagnostic : M bool :=
  hb <- get_heartbeat ;;
  let '(state, error) := hb in
  match state with
  | None => ret false
  | Some _ =>
      system_error <- get_errors 0 ;;
      motor_error <- get_errors 1 ;;
      encoder_error <- get_errors 4 ;;
      pv <- get_encoder_estimates ;;
      motor_ok <- test_motor_calibration ;;
      encoder_ok <- test_encoder_calibration ;;
      save_and_reboot ;;;
      let overall_ok :=
        (system_error =? 0) && (motor_error =? 0) &&
        (encoder_error =? 0) && motor_ok && encoder_ok in
      ret overall_ok
  end.

End Client.

(** * Vocabulary of the properties

    Names for the frames the client sends, predicates on the script of the
    bus, and the buses used as examples. *)

(** An outcome of the script carries a frame addressed [can_id]. *)
Definition matches (can_id : N) (e : N * option Message) : bool :=
  match snd e with
  | Some msg => arbitration_id msg =? can_id
  | None => false
  end.

(** Time spent in the receives of a stretch of the script. *)
Fixpoint elapsed (l : list (N * option Message)) : N :=
  match l with
  | [] => 0
  | e :: l' => fst e + elapsed l'
  end.

(** A silent bus, with the clock at [0] and nothing sent yet. *)
Definition silent : World := mkWorld 0 [] [].

(** The request frame of [get_errors(error_type)], and the world once it
    is on the bus. *)
Definition errors_request (node_id error_type : N) : Message :=
  mkMessage (N.lor (N.shiftl node_id 5) 0x003)
            [error_type; 0; 0; 0; 0; 0; 0; 0] false.

Definition requested (node_id error_type : N) (w : World) : World :=
  mkWorld (now w) (inbox w) (sent w ++ [errors_request node_id error_type]).

(** An outcome of the script is a heartbeat sample in state Idle (1). *)
Definition idle_sample (node_id : N) (e : N * option Message) : bool :=
  match snd e with
  | Some msg =>
      (arbitration_id msg =? can_id_of node_id 0x001) &&
      match nth_error (data msg) 4 with
      | Some axis_state => axis_state =? 1
      | None => false
      end
  | None => false
  end.

(** An outcome of the script is not a heartbeat frame too short to hold
    the axis state. *)
Definition sample_ok (node_id : N) (e : N * option Message) : bool :=
  match snd e with
  | Some msg =>
      negb (arbitration_id msg =? can_id_of node_id 0x001) ||
      (5 <=? length (data msg))%nat
  | None => true
  end.

(** The frame of [send_command(0x007, [state, 0, 0, 0, 0, 0, 0, 0])]. *)
Definition axis_state_command (node_id state : N) : Message :=
  mkMessage (N.lor (N.shiftl node_id 5) 0x007)
            [state; 0; 0; 0; 0; 0; 0; 0] false.

(** The two calibration tests are one procedure, run with the state to
    request and the time limit. *)
Definition calibration (node_id state limit : N) : M bool :=
  send_command node_id 0x007 (Some [state; 0; 0; 0; 0; 0; 0; 0]) ;;;
  start_time <- time_time ;;
  success <- poll_loop node_id start_time limit ;;
  (if negb success
   then send_command node_id 0x007 (Some [1; 0; 0; 0; 0; 0; 0; 0])
   else ret tt) ;;;
  ret success.

(** The command catalogue: the command ids the client sends or waits
    for. *)
Definition catalogue : list N := [0x001; 0x003; 0x007; 0x009; 0x01F; 0x016].

(** The wire format of an outbound frame of the client [node_id]: standard
    identifier [(node_id << 5) | cmd_id] with [cmd_id] of the catalogue,
    and eight payload bytes, zero after the first, all zero unless the
    command takes a data byte (get-errors, set-axis-state). *)
Definition wire_format (node_id : N) (msg : Message) : Prop :=
  is_extended_id msg = false /\
  (length (data msg) <= 8)%nat /\
  exists cmd_id b,
    In cmd_id catalogue /\
    arbitration_id msg = N.lor (N.shiftl node_id 5) cmd_id /\
    data msg = b :: repeat 0 7 /\
    (cmd_id = 0x003 \/ cmd_id = 0x007 \/ b = 0).

(** A computation sends only frames that satisfy [P], whatever its result
    (exceptions included). *)
Definition emits {A : Type} (P : Message -> Prop) (c : M A) : Prop :=
  forall w, exists new, sent (snd (c w)) = sent w ++ new /\ Forall P new.

(** The operations the client offers, and the world each leaves. *)
Inductive operation : Type :=
| GetHeartbeat
| GetErrors (error_type : N)
| TestMotorCalibration
| TestEncoderCalibration
| GetEncoderEstimates
| SaveAndReboot
| FullDiagnostic.

Definition perform (node_id : N) (op : operation) (w : World) : World :=
  match op with
  | GetHeartbeat => snd (get_heartbeat node_id w)
  | GetErrors error_type => snd (get_errors node_id error_type w)
  | TestMotorCalibration => snd (test_motor_calibration node_id w)
  | TestEncoderCalibration => snd (test_encoder_calibration node_id w)
  | GetEncoderEstimates => snd (get_encoder_estimates node_id w)
  | SaveAndReboot => snd (save_and_reboot node_id w)
  | FullDiagnostic => snd (full_diagnostic node_id w)
  end.

(** An outcome of the script is not a frame of fewer than 8 data bytes. *)
Definition full_width (e : N * option Message) : bool :=
  match snd e with
  | Some msg => (8 <=? length (data msg))%nat
  | None => true
  end.

(** The frame of [send_command(cmd_id)] with no data. *)
Definition plain_command (node_id cmd_id : N) : Message :=
  mkMessage (N.lor (N.shiftl node_id 5) cmd_id) [0; 0; 0; 0; 0; 0; 0; 0] false.

(** A heartbeat frame of node 1 in the given axis state. *)
Definition heartbeat_frame (axis_state : N) : Message :=
  mkMessage 0x21 [0; 0; 0; 0; axis_state; 0; 0; 0] false.

(** Node 1 reports state 4 twice and then Idle, half a second apart. *)
Definition calibrates : World :=
  mkWorld 0 [(500, Some (heartbeat_frame 4));
             (500, Some (heartbeat_frame 4));
             (500, Some (heartbeat_frame 1))] [].

(** Node 1 reports state 4 every half second for 16 seconds. *)
Definition stuck_calibrating : World :=
  mkWorld 0 (repeat (500, Some (heartbeat_frame 4)) 32) [].

(** A bus on which the reply to a system-error query comes 10 ms after the
    request and reports the error code 0. *)
Definition replies_zero : World :=
  mkWorld 0 [(10, Some (mkMessage 0x23 [0; 0; 0; 0; 0; 0; 0; 0] false))] [].

(** Node 1 sends one heartbeat (state Idle, no error) and then stays
    silent. *)
Definition one_heartbeat : World :=
  mkWorld 0 [(100, Some (heartbeat_frame 1))] [].

(** Three frames for other ids, then the heartbeat of node 1. *)
Definition busy_then_heartbeat : World :=
  mkWorld 0 [(200, Some (mkMessage 0x41 [0; 0; 0; 0; 8; 0; 0; 0] false));
             (200, Some (mkMessage 0x29 [0; 0; 0; 0; 0; 0; 0; 0] false));
             (200, None);
             (200, Some (mkMessage 0x23 [0; 0; 0; 0] false));
             (200, Some (heartbeat_frame 8))] [].

(** Frames of another node every 100 ms for 4 seconds. *)
Definition busy_without_heartbeat : World :=
  mkWorld 0 (repeat (100, Some (mkMessage 0x41 [0; 0; 0; 0; 8; 0; 0; 0] false)) 40) [].

(** The world once the request of [get_encoder_estimates] is on the
    bus. *)
Definition estimates_requested (node_id : N) (w : World) : World :=
  mkWorld (now w) (inbox w) (sent w ++ [plain_command node_id 0x009]).

(** An outcome of the script is that of a receive that blocked for at most
    its timeout of one second. *)
Definition prompt (e : N * option Message) : bool := fst e <=? 1000.

(** A computation never sets the clock back, uses the script up from its
    front only, and, on a script of prompt receives, ends within [d]
    milliseconds. *)
Definition paces {A : Type} (d : N) (c : M A) : Prop :=
  forall w,
    now w <= now (snd (c w)) /\
    (exists used, inbox w = used ++ inbox (snd (c w))) /\
    (forallb prompt (inbox w) = true -> now (snd (c w)) <= now w + d).

(** The time each operation may take, in milliseconds. *)
Definition time_budget (op : operation) : N :=
  match op with
  | GetHeartbeat => 4000
  | GetErrors _ => 4000
  | TestMotorCalibration => 17000
  | TestEncoderCalibration => 22000
  | GetEncoderEstimates => 4000
  | SaveAndReboot => 6000
  | FullDiagnostic => 65000
  end.

(** A frame is neither the save-configuration nor the reboot command of
    the client [node_id]. *)
Definition before_save (node_id : N) (msg : Message) : Prop :=
  arbitration_id msg <> can_id_of node_id 0x01F /\
  arbitration_id msg <> can_id_of node_id 0x016.

(** A computation that, when it returns, has sent save-configuration and
    reboot as its last two frames and neither of them before, and when it
    raises has sent neither. *)
Definition ends_with_save {A : Type} (node_id : N) (c : M A) : Prop :=
  forall w,
    exists new,
      sent (snd (c w)) = sent w ++ new /\
      match fst (c w) with
      | Raise _ => Forall (before_save node_id) new
      | Ok _ =>
          exists pre,
            new = pre ++ [plain_command node_id 0x01F;
                          plain_command node_id 0x016] /\
            Forall (before_save node_id) pre
      end.

(** The payload of an outcome of the script is made of bytes. *)
Definition byte_payload (e : N * option Message) : bool :=
  match snd e with
  | Some msg => forallb (fun b => b <? 256) (data msg)
  | None => true
  end.

(** Node 1 sends a heartbeat, answers none of the four queries that
    follow (twelve empty receives), and reports Idle during each of the
    two calibration tests. *)
Definition answers_no_query : World :=
  mkWorld 0 ((100, Some (heartbeat_frame 1)) ::
             repeat (1000, None) 12 ++
             [(100, Some (heartbeat_frame 1)); (100, Some (heartbeat_frame 1))])
          [].

(** An outcome of the script is not a reply to a get-errors query of the
    client [node_id]. *)
Definition no_errors_reply (node_id : N) (e : N * option Message) : bool :=
  negb (matches (can_id_of node_id 0x003) e).

(** Two empty receives of a second each, a frame of another id 0.9 s
    later, and the heartbeat of node 1 0.9 s after that, at 3.8 s. *)
Definition late_heartbeat : World :=
  mkWorld 0 [(1000, None); (1000, None);
             (900, Some (mkMessage 0x41 [0; 0; 0; 0; 8; 0; 0; 0] false));
             (900, Some (heartbeat_frame 8))] [].


(** Node 1 sends a heartbeat, answers the queries for error types 0 and 4
    with 4 bytes, the query for type 1 and for the encoder estimates with
    8 bytes, and reports Idle during each calibration test. *)
Definition answers_in_four_bytes : World :=
  mkWorld 0 [(100, Some (heartbeat_frame 1));
             (10, Some (mkMessage 0x23 [0; 0; 0; 0] false));
             (10, Some (mkMessage 0x23 [0; 0; 0; 0; 0; 0; 0; 0] false));
             (10, Some (mkMessage 0x23 [0; 0; 0; 0] false));
             (10, Some (mkMessage 0x29 [0; 0; 72; 65; 0; 0; 64; 192] false));
             (100, Some (heartbeat_frame 1));
             (100, Some (heartbeat_frame 1))] [].

(** * Properties *)

(** ** The script of the bus *)

Lemma elapsed_app (l1 l2 : list (N * option Message)) :
  elapsed (l1 ++ l2) = elapsed l1 + elapsed l2.
Proof.
  induction l1 as [|e l1 IH]; cbn [elapsed app] in *; lia.
Qed.

Lemma recv_nil (timeout : N) (w : World) :
  inbox w = [] -> recv timeout w = (None, set_now (now w + timeout) w).
Proof. unfold recv. now intros ->. Qed.

Lemma recv_cons (timeout dt : N) (m : option Message) rest (w : World) :
  inbox w = (dt, m) :: rest ->
  recv timeout w = (m, mkWorld (now w + dt) rest (sent w)).
Proof. unfold recv. now intros ->. Qed.

(** What one receive does to the world: it sends nothing, the clock does
    not go back, and at most the head of the script is used up. *)
Lemma recv_step (timeout : N) (w : World) (m : option Message) (w' : World) :
  recv timeout w = (m, w') ->
  sent w' = sent w /\
  ((inbox w = [] /\ m = None /\ inbox w' = [] /\ now w' = now w + timeout) \/
   (exists dt, inbox w = (dt, m) :: inbox w' /\ now w' = now w + dt)).
Proof.
  unfold recv, set_now. destruct (inbox w) as [|[dt m0] rest] eqn:E.
  - intros [= <- <-]. cbn. rewrite ?E. split; [reflexivity|]. left. auto.
  - intros [= <- <-]. cbn. split; [reflexivity|]. right. now exists dt.
Qed.

(** ** The response waiter *)

Section Waiter.

Variables can_id start_time timeout : N.

Lemma wait_loop_sent (w : World) :
  sent (snd (wait_loop can_id start_time timeout w)) = sent w.
Proof.
  funelim (wait_loop can_id start_time timeout w); cbn [snd];
    try reflexivity;
    match goal with
    | Hr : recv _ _ = _ |- _ => destruct (recv_step _ _ _ _ Hr) as [Hs _]
    end; congruence.
Qed.

Lemma wait_loop_now (w : World) :
  now w <= now (snd (wait_loop can_id start_time timeout w)).
Proof.
  funelim (wait_loop can_id start_time timeout w); cbn [snd];
    try lia;
    match goal with
    | Hr : recv _ _ = _ |- _ =>
        destruct (recv_step _ _ _ _ Hr) as [_ [(_ & _ & _ & Hn)|(dt & _ & Hn)]]
    end; lia.
Qed.

(** A frame the wait returns carries the id it waited for. *)
Lemma wait_loop_returns_match (w : World) (f : Message) :
  fst (wait_loop can_id start_time timeout w) = Some f ->
  arbitration_id f = can_id.
Proof.
  funelim (wait_loop can_id start_time timeout w); cbn [fst];
    try (intros; discriminate); auto.
  intros [= ->]. now apply N.eqb_eq.
Qed.

(** A wait that gives up does so past its deadline. *)
Lemma wait_loop_deadline (w : World) :
  fst (wait_loop can_id start_time timeout w) = None ->
  timeout <= now (snd (wait_loop can_id start_time timeout w)) - start_time.
Proof.
  funelim (wait_loop can_id start_time timeout w); cbn [fst snd];
    try (intros; discriminate); auto.
  intros _.
  match goal with H : (_ <? _) = false |- _ => exact (proj1 (N.ltb_ge _ _) H) end.
Qed.

(** On a silent bus the wait times out. *)
Lemma wait_loop_silent (w : World) :
  inbox w = [] -> fst (wait_loop can_id start_time timeout w) = None.
Proof.
  funelim (wait_loop can_id start_time timeout w); cbn [fst]; intros Hnil;
    try reflexivity;
    match goal with
    | Hr : recv _ _ = _ |- _ =>
        destruct (recv_step _ _ _ _ Hr)
          as [_ [(_ & Hm & Hi & _)|(dt & Hi & _)]]
    end; try congruence; auto.
Qed.

(** A matching frame whose receive begins inside the window, after
    outcomes that do not match, is the one returned. *)
Lemma wait_loop_hit (pre : list (N * option Message)) :
  forall (w : World) (dt : N) (f : Message) rest,
    inbox w = pre ++ (dt, Some f) :: rest ->
    start_time <= now w ->
    Forall (fun e => matches can_id e = false) pre ->
    arbitration_id f = can_id ->
    now w - start_time + elapsed pre < timeout ->
    wait_loop can_id start_time timeout w =
    (Some f, mkWorld (now w + elapsed pre + dt) rest (sent w)).
Proof.
  induction pre as [|[dt0 m0] pre IH]; intros w dt f rest Hi Hs Hpre Hf Ht;
    cbn [elapsed app fst] in *; rewrite wait_loop_eq.
  - replace (now w - start_time <? timeout) with true
      by (symmetry; apply N.ltb_lt; lia).
    rewrite (recv_cons _ _ _ _ _ Hi), Hf, N.eqb_refl.
    do 2 f_equal. lia.
  - replace (now w - start_time <? timeout) with true
      by (symmetry; apply N.ltb_lt; lia).
    rewrite (recv_cons _ _ _ _ _ Hi).
    apply Forall_cons_iff in Hpre as [Hm Hpre'].
    unfold matches in Hm; cbn [snd] in Hm.
    set (w1 := mkWorld (now w + dt0) (pre ++ (dt, Some f) :: rest) (sent w)).
    assert (Hrec : wait_loop can_id start_time timeout w1 =
                   (Some f, mkWorld (now w + (dt0 + elapsed pre) + dt) rest (sent w))).
    { rewrite (IH w1 dt f rest); subst w1; cbn [inbox now sent];
        try reflexivity; try assumption; try lia.
      do 2 f_equal. lia. }
    destruct m0 as [msg|]; [rewrite Hm|]; exact Hrec.
Qed.

(** When every outcome whose receive begins inside the window fails to
    match, the wait times out, however many frames went by. *)
Lemma wait_loop_miss (l : list (N * option Message)) :
  forall (w : World),
    inbox w = l ->
    start_time <= now w ->
    (forall pre e rest,
        l = pre ++ e :: rest ->
        now w - start_time + elapsed pre < timeout ->
        matches can_id e = false) ->
    fst (wait_loop can_id start_time timeout w) = None.
Proof.
  induction l as [|[dt m] l IH]; intros w Hi Hs Hall.
  - now apply wait_loop_silent.
  - rewrite wait_loop_eq.
    destruct (now w - start_time <? timeout) eqn:Hc; [|reflexivity].
    apply N.ltb_lt in Hc.
    rewrite (recv_cons _ _ _ _ _ Hi).
    assert (Hm : matches can_id (dt, m) = false).
    { apply (Hall [] (dt, m) l); [reflexivity|]. cbn [elapsed]. lia. }
    unfold matches in Hm; cbn [snd] in Hm.
    set (w1 := mkWorld (now w + dt) l (sent w)).
    assert (Hrec : fst (wait_loop can_id start_time timeout w1) = None).
    { apply IH; subst w1; cbn [inbox now]; [reflexivity|lia|].
      intros pre e rest -> Hlt.
      apply (Hall ((dt, m) :: pre) e rest); [reflexivity|].
      cbn [elapsed fst]. lia. }
    destruct m as [msg|]; [rewrite Hm|]; exact Hrec.
Qed.

End Waiter.

(** A frame the wait returns is a matching frame of the script whose
    receive began inside the window, after outcomes that do not match. *)
Lemma wait_loop_some_inv (can_id start_time timeout : N) (w : World)
    (f : Message) :
  start_time <= now w ->
  fst (wait_loop can_id start_time timeout w) = Some f ->
  exists pre dt rest,
    inbox w = pre ++ (dt, Some f) :: rest /\
    Forall (fun e => matches can_id e = false) pre /\
    arbitration_id f = can_id /\
    now w - start_time + elapsed pre < timeout.
Proof.
  funelim (wait_loop can_id start_time timeout w); cbn [fst]; intros Hs Hf;
    try discriminate;
    match goal with
    | G : (_ <? _) = true |- _ => pose proof (proj1 (N.ltb_lt _ _) G) as Hg
    end;
    match goal with
    | Hr : recv _ _ = _ |- _ =>
        destruct (recv_step _ _ _ _ Hr)
          as [_ [(_ & Hm & Hi' & Hn)|(dt0 & Hi & Hn)]]
    end; try discriminate;
    try specialize (H f).
  - destruct H as (pre & dt & rest & Hp & _); [lia|exact Hf|].
    rewrite Hi' in Hp. now destruct pre.
  - destruct H as (pre & dt & rest & Hp & Hpre & Hid & Hlt); [lia|exact Hf|].
    exists ((dt0, None) :: pre), dt, rest. rewrite Hi, Hp.
    repeat split; try assumption; [now constructor|].
    cbn [elapsed fst]. lia.
  - injection Hf as <-. exists [], dt0, (inbox w').
    repeat split; [exact Hi|constructor|now apply N.eqb_eq|].
    cbn [elapsed]. lia.
  - destruct H as (pre & dt & rest & Hp & Hpre & Hid & Hlt); [lia|exact Hf|].
    exists ((dt0, Some msg) :: pre), dt, rest. rewrite Hi, Hp.
    repeat split; try assumption.
    + constructor; [|assumption]. unfold matches. cbn [snd]. assumption.
    + cbn [elapsed fst]. lia.
Qed.

(** C4, as stated, fails.  The deadline is tested only before each
    receive, and a receive begun before it still delivers its frame.  On
    this bus two receives come back empty after a second each, a frame of
    another id comes 0.9 s later, and the heartbeat 0.9 s after that: no
    matching frame has arrived when the 3 seconds are over, yet the wait
    for the heartbeat does not time out, it returns the heartbeat at
    3.8 s. *)
Lemma wait_for_message_returns_late_frame :
  wait_for_message 1 0x001 3000 late_heartbeat =
    (Ok (Some (heartbeat_frame 8)), mkWorld 3800 [] []) /\
  forallb (fun e => negb (matches (can_id_of 1 0x001) e))
          (firstn 3 (inbox late_heartbeat)) = true /\
  elapsed (firstn 3 (inbox late_heartbeat)) = 2900 /\
  elapsed (inbox late_heartbeat) = 3800 /\
  3000 <= 3800.
Proof. vm_compute. repeat split; (reflexivity || discriminate). Qed.

(** C4, amended.  The response waiter, for every script of the bus: a
    frame it returns carries the arbitration id [(node_id << 5) | cmd_id],
    is the first such frame of the script, and its receive began before
    the cumulative time spent reached [timeout]; conversely a matching
    frame whose receive begins before that, preceded only by outcomes that
    do not match (any number of them, frames or empty receives), is the
    one returned, the outcomes before it are dropped and the rest of the
    script is left; and when every outcome whose receive begins inside the
    window fails to match, the result is the timeout [None], reached no
    earlier than [timeout] after the call, whatever the amount of other
    traffic.  Nothing is sent meanwhile. *)
Theorem wait_for_message_first_match (node_id cmd_id timeout : N) (w : World) :
  (exists r w',
      wait_for_message node_id cmd_id timeout w = (Ok r, w') /\
      sent w' = sent w /\
      match r with
      | Some f =>
          arbitration_id f = can_id_of node_id cmd_id /\
          exists pre dt,
            inbox w = pre ++ (dt, Some f) :: inbox w' /\
            Forall (fun e => matches (can_id_of node_id cmd_id) e = false) pre /\
            elapsed pre < timeout
      | None => timeout <= now w' - now w
      end) /\
  (forall pre dt f rest,
      inbox w = pre ++ (dt, Some f) :: rest ->
      Forall (fun e => matches (can_id_of node_id cmd_id) e = false) pre ->
      arbitration_id f = can_id_of node_id cmd_id ->
      elapsed pre < timeout ->
      wait_for_message node_id cmd_id timeout w =
      (Ok (Some f), mkWorld (now w + elapsed pre + dt) rest (sent w))) /\
  ((forall pre e rest,
       inbox w = pre ++ e :: rest ->
       elapsed pre < timeout ->
       matches (can_id_of node_id cmd_id) e = false) ->
   fst (wait_for_message node_id cmd_id timeout w) = Ok None).
Proof.
  unfold wait_for_message. cbn [fst]. repeat split.
  - eexists _, _. split; [reflexivity|]. split; [apply wait_loop_sent|].
    destruct (fst (wait_loop _ _ _ w)) as [f|] eqn:E.
    + split; [revert E; apply wait_loop_returns_match|].
      destruct (wait_loop_some_inv _ _ _ _ _ (N.le_refl _) E)
        as (pre & dt & rest & Hi & Hpre & Hid & Hlt).
      exists pre, dt.
      rewrite (wait_loop_hit _ _ _ pre w dt f rest Hi (N.le_refl _)
                 Hpre Hid Hlt).
      cbn [snd inbox]. repeat split; [exact Hi|exact Hpre|lia].
    + now apply wait_loop_deadline.
  - intros pre dt f rest Hi Hpre Hf Ht.
    rewrite (wait_loop_hit _ _ _ pre w dt f rest); try assumption;
      try reflexivity; lia.
  - intros Hall. f_equal.
    apply (wait_loop_miss _ _ _ (inbox w)); [reflexivity|lia|].
    intros pre e rest Hi Hlt. apply (Hall pre e rest Hi). lia.
Qed.

Lemma wait_for_message_first_match_witness :
  wait_for_message 1 0x001 3000 busy_then_heartbeat =
    (Ok (Some (heartbeat_frame 8)), mkWorld 1000 [] []) /\
  fst (wait_for_message 1 0x001 3000 busy_without_heartbeat) = Ok None.
Proof.
  split.
  - destruct (wait_for_message_first_match 1 0x001 3000 busy_then_heartbeat)
      as (_ & Hhit & _).
    apply (Hhit (firstn 4 (inbox busy_then_heartbeat)) 200
                (heartbeat_frame 8) []).
    + reflexivity.
    + repeat constructor.
    + reflexivity.
    + reflexivity.
  - destruct (wait_for_message_first_match 1 0x001 3000 busy_without_heartbeat)
      as (_ & _ & Hmiss).
    apply Hmiss. intros pre e rest Hsplit _.
    assert (Hin : In e (inbox busy_without_heartbeat))
      by (rewrite Hsplit; apply in_elt).
    assert (Hall : Forall (fun e => matches (can_id_of 1 1) e = false)
                          (inbox busy_without_heartbeat))
      by (repeat constructor).
    exact (proj1 (Forall_forall _ _) Hall e Hin).
Defined.

(** ** Addressing *)

(** With a command id below [2^5] the two fields of the identifier do not
    overlap. *)
Lemma can_id_split (node cmd : N) :
  cmd < 32 -> can_id_of node cmd = 32 * node + cmd.
Proof.
  intros Hc. unfold can_id_of.
  set (x := N.lor (N.shiftl node 5) cmd).
  assert (Hq : x / 32 = node).
  { change 32 with (2 ^ 5). rewrite <- N.shiftr_div_pow2. unfold x.
    rewrite N.shiftr_lor, N.shiftr_shiftl_l by lia.
    rewrite N.sub_diag, N.shiftl_0_r, (N.shiftr_div_pow2 cmd).
    rewrite (N.div_small cmd) by (cbn; lia). apply N.lor_0_r. }
  assert (Hr : x mod 32 = cmd).
  { change 32 with (2 ^ 5). rewrite <- N.land_ones. unfold x.
    rewrite N.land_lor_distr_l, !N.land_ones, N.shiftl_mul_pow2.
    rewrite N.Div0.mod_mul, (N.mod_small cmd) by (cbn; lia).
    apply N.lor_0_l. }
  rewrite (N.div_mod x 32) by lia. rewrite Hq, Hr. reflexivity.
Qed.

(** C7. The frame [send_command] builds for [(node, cmd_id)] carries the
    arbitration id [(node << 5) | cmd_id]; and for [node < 2^6],
    [cmd_id < 2^5] the pair and the id determine each other: the id is an
    11-bit number from which [id >> 5] and [id & 31] give the pair back,
    every 11-bit id is the id of the pair read off it in this way, and two
    pairs with the same id are the same pair. *)
Theorem arbitration_id_bijective :
  (forall node cmd_id payload w,
      exists msg,
        sent (snd (send_command node cmd_id payload w)) = sent w ++ [msg] /\
        arbitration_id msg = N.lor (N.shiftl node 5) cmd_id) /\
  (forall node cmd_id,
      node < 2 ^ 6 -> cmd_id < 2 ^ 5 ->
      can_id_of node cmd_id < 2 ^ 11 /\
      N.shiftr (can_id_of node cmd_id) 5 = node /\
      N.land (can_id_of node cmd_id) 31 = cmd_id) /\
  (forall id,
      id < 2 ^ 11 ->
      N.shiftr id 5 < 2 ^ 6 /\ N.land id 31 < 2 ^ 5 /\
      can_id_of (N.shiftr id 5) (N.land id 31) = id) /\
  (forall node1 cmd1 node2 cmd2,
      node1 < 2 ^ 6 -> cmd1 < 2 ^ 5 -> node2 < 2 ^ 6 -> cmd2 < 2 ^ 5 ->
      can_id_of node1 cmd1 = can_id_of node2 cmd2 ->
      node1 = node2 /\ cmd1 = cmd2).
Proof.
  change (2 ^ 6) with 64. change (2 ^ 5) with 32. change (2 ^ 11) with 2048.
  assert (Hdiv : forall id, N.shiftr id 5 = id / 32).
  { intros id. now rewrite N.shiftr_div_pow2. }
  assert (Hmod : forall id, N.land id 31 = id mod 32).
  { intros id. change 31 with (N.ones 5). now rewrite N.land_ones. }
  repeat split.
  - unfold send_command, bus_send. cbn [snd sent]. eexists. split; reflexivity.
  - rewrite can_id_split by assumption. lia.
  - rewrite Hdiv, can_id_split by assumption.
    rewrite N.mul_comm, N.div_add_l, N.div_small by lia. lia.
  - rewrite Hmod, can_id_split by assumption.
    rewrite N.add_comm, N.mul_comm, N.Div0.mod_add. apply N.mod_small. lia.
  - rewrite Hdiv. apply N.Div0.div_lt_upper_bound. lia.
  - rewrite Hmod. apply N.mod_lt. lia.
  - rewrite Hdiv, Hmod, can_id_split by (apply N.mod_lt; lia).
    symmetry. apply N.div_mod. lia.
  - rewrite !can_id_split in H3 by assumption. lia.
  - rewrite !can_id_split in H3 by assumption. lia.
Qed.

Lemma arbitration_id_bijective_witness :
  (can_id_of 1 0x01F < 2 ^ 11 /\
   N.shiftr (can_id_of 1 0x01F) 5 = 1 /\
   N.land (can_id_of 1 0x01F) 31 = 0x01F) /\
  (N.shiftr 0x23 5 < 2 ^ 6 /\ N.land 0x23 31 < 2 ^ 5 /\
   can_id_of (N.shiftr 0x23 5) (N.land 0x23 31) = 0x23).
Proof.
  destruct arbitration_id_bijective as (_ & Hid & Hpair & _).
  split.
  - apply Hid; reflexivity.
  - apply Hpair; reflexivity.
Defined.

(** ** Command primitives *)

(** A payload too short for an index raises [IndexError]; a slice too
    short for a format raises [struct.error]. *)
Lemma get_item_short (d : list N) (i : nat) :
  (length d <= i)%nat -> get_item d i = Raise IndexError.
Proof.
  intros H. unfold get_item.
  now rewrite (proj2 (nth_error_None d i) H).
Qed.

Lemma get_item_long (d : list N) (i : nat) :
  (i < length d)%nat -> exists b, get_item d i = Ok b.
Proof.
  intros H. unfold get_item.
  destruct (nth_error d i) as [b|] eqn:E; [now exists b|].
  apply nth_error_None in E. lia.
Qed.

Lemma slice_0_length (d : list N) (n : nat) :
  length (slice d 0 n) = Nat.min n (length d).
Proof. unfold slice. cbn [skipn]. rewrite Nat.sub_0_r. apply length_firstn. Qed.

Lemma slice_length (d : list N) (lo hi : nat) :
  length (slice d lo hi) = Nat.min (hi - lo) (length d - lo).
Proof. unfold slice. now rewrite length_firstn, length_skipn. Qed.

(** [get_errors] in one step: the request, the wait, the decoding. *)
Lemma get_errors_run (node_id error_type : N) (w : World) :
  get_errors node_id error_type w =
  match wait_for_message node_id 0x003 3000 (requested node_id error_type w) with
  | (Ok (Some msg), w') =>
      (if error_type =? 0 then unpack_I (slice (data msg) 0 4)
       else if error_type =? 1 then unpack_Q (slice (data msg) 0 8)
       else unpack_I (slice (data msg) 0 4), w')
  | (Ok None, w') => (Ok 0, w')
  | (Raise e, w') => (Raise e, w')
  end.
Proof.
  unfold get_errors, bind, send_command, bus_send, requested, errors_request,
    can_id_of, wait_for_message, lift, ret. cbn [fst snd].
  destruct (fst (wait_loop _ _ _ _)) as [msg|]; [|reflexivity].
  destruct (error_type =? 0); [|destruct (error_type =? 1)];
    match goal with |- context [unpack_I ?x] => destruct (unpack_I x)
                  | |- context [unpack_Q ?x] => destruct (unpack_Q x) end;
    reflexivity.
Qed.

Lemma get_heartbeat_run (node_id : N) (w : World) :
  get_heartbeat node_id w =
  match wait_for_message node_id 0x001 3000 w with
  | (Ok (Some msg), w') =>
      (match get_item (data msg) 4, get_item (data msg) 5,
             unpack_I (slice (data msg) 0 4) with
       | Ok axis_state, Ok _, Ok error => Ok (Some axis_state, Some error)
       | Raise e, _, _ => Raise e
       | Ok _, Raise e, _ => Raise e
       | Ok _, Ok _, Raise e => Raise e
       end, w')
  | (Ok None, w') => (Ok (None, None), w')
  | (Raise e, w') => (Raise e, w')
  end.
Proof.
  unfold get_heartbeat, bind, wait_for_message, lift, ret. cbn [fst snd].
  destruct (fst (wait_loop _ _ _ _)) as [msg|]; [|reflexivity].
  destruct (get_item (data msg) 4); [|reflexivity].
  destruct (get_item (data msg) 5); [|reflexivity].
  destruct (unpack_I _); reflexivity.
Qed.

(** C9. [get_heartbeat] sends nothing: it is the 3-second wait for the
    frame [0x001] and nothing else (the world it leaves is the one the
    wait leaves, and the log of sent frames is untouched), and when that
    wait times out it returns the no-response pair [(None, None)]. *)
Theorem get_heartbeat_sends_nothing (node_id : N) (w : World) :
  sent (snd (get_heartbeat node_id w)) = sent w /\
  snd (get_heartbeat node_id w) = snd (wait_for_message node_id 0x001 3000 w) /\
  (fst (wait_for_message node_id 0x001 3000 w) = Ok None ->
   fst (get_heartbeat node_id w) = Ok (None, None)).
Proof.
  assert (Hw : snd (get_heartbeat node_id w) =
               snd (wait_for_message node_id 0x001 3000 w)).
  { unfold get_heartbeat, bind, wait_for_message, lift, ret. cbn [snd fst].
    destruct (fst (wait_loop _ _ _ w)) as [msg|]; [|reflexivity].
    destruct (get_item (data msg) 4); [|reflexivity].
    destruct (get_item (data msg) 5); [|reflexivity].
    destruct (unpack_I _); reflexivity. }
  split; [|split].
  - rewrite Hw. unfold wait_for_message. cbn [snd]. apply wait_loop_sent.
  - exact Hw.
  - unfold get_heartbeat, bind, wait_for_message, ret. cbn [fst snd].
    intros [= ->]. reflexivity.
Qed.

Lemma get_heartbeat_sends_nothing_witness :
  fst (get_heartbeat 1 silent) = Ok (None, None).
Proof.
  destruct (get_heartbeat_sends_nothing 1 silent) as (_ & _ & Hto).
  apply Hto. reflexivity.
Defined.

(** C10. When the first heartbeat wait of a run times out,
    [full_diagnostic] returns [False] there and then: the world it leaves is
    the one the wait left, and no frame has been sent. *)
Theorem full_diagnostic_no_heartbeat (node_id : N) (w : World) :
  fst (wait_for_message node_id 0x001 3000 w) = Ok None ->
  full_diagnostic node_id w =
    (Ok false, snd (wait_for_message node_id 0x001 3000 w)) /\
  sent (snd (full_diagnostic node_id w)) = sent w.
Proof.
  intros Hto.
  assert (E : full_diagnostic node_id w =
              (Ok false, snd (wait_for_message node_id 0x001 3000 w))).
  { unfold full_diagnostic. unfold bind at 1.
    rewrite get_heartbeat_run.
    destruct (wait_for_message node_id 1 3000 w) as [r w'].
    cbn [fst snd] in *. subst r. reflexivity. }
  split; [exact E|].
  rewrite E. unfold wait_for_message. cbn [snd]. apply wait_loop_sent.
Qed.

Lemma full_diagnostic_no_heartbeat_witness :
  full_diagnostic 1 silent = (Ok false, mkWorld 3000 [] []) /\
  sent (snd (full_diagnostic 1 silent)) = [].
Proof.
  apply (full_diagnostic_no_heartbeat 1 silent). vm_compute. reflexivity.
Defined.

(** C5. A matched frame whose payload is shorter than the decoder needs
    makes the primitive fail with an exception, which is not how a timeout
    ends.  [get_heartbeat] on fewer than 6 bytes raises [IndexError];
    [get_errors] raises [struct.error] on fewer than 8 bytes for the motor
    (64-bit) word and on fewer than 4 bytes for the 32-bit words.  On a
    timeout the two return normally, [(None, None)] and [0]. *)
Theorem short_payload_raises (node_id : N) (w : World) :
  (forall msg w',
      wait_for_message node_id 0x001 3000 w = (Ok (Some msg), w') ->
      (length (data msg) < 6)%nat ->
      get_heartbeat node_id w = (Raise IndexError, w')) /\
  (forall error_type msg w',
      wait_for_message node_id 0x003 3000 (requested node_id error_type w)
        = (Ok (Some msg), w') ->
      (length (data msg) < (if (error_type =? 1)%N then 8 else 4))%nat ->
      get_errors node_id error_type w = (Raise StructError, w')) /\
  (forall w',
      wait_for_message node_id 0x001 3000 w = (Ok None, w') ->
      get_heartbeat node_id w = (Ok (None, None), w')) /\
  (forall error_type w',
      wait_for_message node_id 0x003 3000 (requested node_id error_type w)
        = (Ok None, w') ->
      get_errors node_id error_type w = (Ok 0, w')).
Proof.
  repeat split.
  - intros msg w' Hw Hlen. rewrite get_heartbeat_run, Hw.
    destruct (Nat.le_gt_cases (length (data msg)) 4) as [H4|H4].
    + now rewrite (get_item_short _ 4 H4).
    + destruct (get_item_long _ 4 H4) as [b ->].
      rewrite (get_item_short _ 5) by lia. reflexivity.
  - intros error_type msg w' Hw Hlen. rewrite get_errors_run, Hw.
    unfold unpack_I, unpack_Q. rewrite !slice_0_length.
    destruct (error_type =? 0) eqn:E0.
    + apply N.eqb_eq in E0. subst error_type. cbn in Hlen.
      replace (Nat.min 4 (length (data msg)) =? 4)%nat with false
        by (symmetry; apply Nat.eqb_neq; lia).
      reflexivity.
    + destruct (error_type =? 1).
      * replace (Nat.min 8 (length (data msg)) =? 8)%nat with false
          by (symmetry; apply Nat.eqb_neq; lia).
        reflexivity.
      * replace (Nat.min 4 (length (data msg)) =? 4)%nat with false
          by (symmetry; apply Nat.eqb_neq; lia).
        reflexivity.
  - intros w' Hw. now rewrite get_heartbeat_run, Hw.
  - intros error_type w' Hw. now rewrite get_errors_run, Hw.
Qed.

Lemma short_payload_raises_witness :
  get_heartbeat 1 (mkWorld 0 [(100, Some (mkMessage 0x21 [0; 0; 0; 0; 1] false))] [])
    = (Raise IndexError, mkWorld 100 [] []) /\
  get_errors 1 1 (mkWorld 0 [(100, Some (mkMessage 0x23 [1; 0; 0; 0] false))] [])
    = (Raise StructError, mkWorld 100 [] [errors_request 1 1]) /\
  get_errors 1 4 (mkWorld 0 [(100, Some (mkMessage 0x23 [1; 0; 0] false))] [])
    = (Raise StructError, mkWorld 100 [] [errors_request 1 4]).
Proof.
  split; [|split].
  - destruct (short_payload_raises 1
               (mkWorld 0 [(100, Some (mkMessage 0x21 [0; 0; 0; 0; 1] false))] []))
      as (Hhb & _).
    apply (Hhb (mkMessage 0x21 [0; 0; 0; 0; 1] false)); [reflexivity|cbn; lia].
  - destruct (short_payload_raises 1
               (mkWorld 0 [(100, Some (mkMessage 0x23 [1; 0; 0; 0] false))] []))
      as (_ & Herr & _).
    apply (Herr 1 (mkMessage 0x23 [1; 0; 0; 0] false)); [reflexivity|cbn; lia].
  - destruct (short_payload_raises 1
               (mkWorld 0 [(100, Some (mkMessage 0x23 [1; 0; 0] false))] []))
      as (_ & Herr & _).
    apply (Herr 4 (mkMessage 0x23 [1; 0; 0] false)); [reflexivity|cbn; lia].
Defined.

Lemma get_errors_sent (node_id error_type : N) (w : World) :
  sent (snd (get_errors node_id error_type w)) =
  sent w ++ [errors_request node_id error_type].
Proof.
  rewrite get_errors_run.
  pose proof (wait_loop_sent (can_id_of node_id 3)
                (now (requested node_id error_type w)) 3000
                (requested node_id error_type w)) as Hs.
  unfold wait_for_message. cbn [fst snd] in *.
  destruct (fst (wait_loop _ _ _ _)); cbn [snd]; exact Hs.
Qed.

(** The value of eight, and of four, little-endian bytes. *)
Lemma le_value_8 (b0 b1 b2 b3 b4 b5 b6 b7 : N) :
  le_value [b0; b1; b2; b3; b4; b5; b6; b7] =
  b0 + 2 ^ 8 * b1 + 2 ^ 16 * b2 + 2 ^ 24 * b3 +
  2 ^ 32 * b4 + 2 ^ 40 * b5 + 2 ^ 48 * b6 + 2 ^ 56 * b7.
Proof. cbn [le_value]. lia. Qed.

Lemma le_value_4 (b0 b1 b2 b3 : N) :
  le_value [b0; b1; b2; b3] = b0 + 2 ^ 8 * b1 + 2 ^ 16 * b2 + 2 ^ 24 * b3.
Proof. cbn [le_value]. lia. Qed.

(** Bytes give a value that fits their number of bits. *)
Lemma le_value_bound (bs : list N) :
  Forall (fun b => b < 256) bs -> le_value bs < 256 ^ N.of_nat (length bs).
Proof.
  induction 1 as [|b bs Hb _ IH]; cbn [le_value length]; [cbn; lia|].
  rewrite Nat2N.inj_succ, N.pow_succ_r'. lia.
Qed.

(** The decoding of a matched response that is long enough. *)
Lemma get_errors_value (node_id error_type : N) (w : World) msg w' :
  wait_for_message node_id 0x003 3000 (requested node_id error_type w)
    = (Ok (Some msg), w') ->
  (error_type = 1 -> (8 <= length (data msg))%nat ->
   get_errors node_id error_type w =
   (Ok (le_value (firstn 8 (data msg))), w')) /\
  (error_type <> 1 -> (4 <= length (data msg))%nat ->
   get_errors node_id error_type w =
   (Ok (le_value (firstn 4 (data msg))), w')).
Proof.
  intros Hw. rewrite get_errors_run, Hw.
  unfold unpack_I, unpack_Q. rewrite !slice_0_length.
  unfold slice. cbn [skipn Nat.sub]. split.
  - intros -> Hlen. cbn [N.eqb Pos.eqb].
    now rewrite Nat.min_l, Nat.eqb_refl by assumption.
  - intros Hne Hlen. apply N.eqb_neq in Hne. rewrite Hne.
    rewrite Nat.min_l, Nat.eqb_refl by assumption.
    now destruct (error_type =? 0).
Qed.

Lemma get_errors_bytes (node_id error_type : N) (w : World) msg w' :
  wait_for_message node_id 0x003 3000 (requested node_id error_type w)
    = (Ok (Some msg), w') ->
  forall b0 b1 b2 b3 b4 b5 b6 b7,
    data msg = [b0; b1; b2; b3; b4; b5; b6; b7] ->
    get_errors node_id error_type w =
    (Ok (if error_type =? 1
         then b0 + 2 ^ 8 * b1 + 2 ^ 16 * b2 + 2 ^ 24 * b3 +
              2 ^ 32 * b4 + 2 ^ 40 * b5 + 2 ^ 48 * b6 + 2 ^ 56 * b7
         else b0 + 2 ^ 8 * b1 + 2 ^ 16 * b2 + 2 ^ 24 * b3), w').
Proof.
  intros Hw b0 b1 b2 b3 b4 b5 b6 b7 Hd.
  destruct (get_errors_value _ _ _ _ _ Hw) as [H1 Hn].
  destruct (N.eqb_spec error_type 1) as [E|E].
  - rewrite (H1 E) by (rewrite Hd; cbn; lia).
    rewrite Hd. cbn [firstn]. now rewrite le_value_8.
  - rewrite (Hn E) by (rewrite Hd; cbn; lia).
    rewrite Hd. cbn [firstn]. now rewrite le_value_4.
Qed.

(** C6. [get_errors(error_type)] sends one frame, command [0x003] with
    payload [error_type, 0, 0, 0, 0, 0, 0, 0]; the matched response is
    decoded from its first 8 bytes as a 64-bit little-endian value when
    [error_type = 1] (motor) and from its first 4 bytes as a 32-bit
    little-endian value for every other [error_type].  For the motor,
    [01 00 00 00 00 00 00 00] gives 1 and eight zero bytes give 0. *)
Theorem get_errors_decodes (node_id : N) (w : World) :
  (forall error_type,
      sent (snd (get_errors node_id error_type w)) =
      sent w ++ [mkMessage (N.lor (N.shiftl node_id 5) 0x003)
                           [error_type; 0; 0; 0; 0; 0; 0; 0] false]) /\
  (forall error_type msg w',
      wait_for_message node_id 0x003 3000 (requested node_id error_type w)
        = (Ok (Some msg), w') ->
      (forall b0 b1 b2 b3 b4 b5 b6 b7,
          data msg = [b0; b1; b2; b3; b4; b5; b6; b7] ->
          get_errors node_id error_type w =
          (Ok (if error_type =? 1
               then b0 + 2 ^ 8 * b1 + 2 ^ 16 * b2 + 2 ^ 24 * b3 +
                    2 ^ 32 * b4 + 2 ^ 40 * b5 + 2 ^ 48 * b6 + 2 ^ 56 * b7
               else b0 + 2 ^ 8 * b1 + 2 ^ 16 * b2 + 2 ^ 24 * b3), w')) /\
      (error_type = 1 -> (8 <= length (data msg))%nat ->
       get_errors node_id error_type w =
       (Ok (le_value (firstn 8 (data msg))), w')) /\
      (error_type <> 1 -> (4 <= length (data msg))%nat ->
       get_errors node_id error_type w =
       (Ok (le_value (firstn 4 (data msg))), w'))) /\
  (forall msg w',
      wait_for_message node_id 0x003 3000 (requested node_id 1 w)
        = (Ok (Some msg), w') ->
      (data msg = [1; 0; 0; 0; 0; 0; 0; 0] ->
       get_errors node_id 1 w = (Ok 1, w')) /\
      (data msg = [0; 0; 0; 0; 0; 0; 0; 0] ->
       get_errors node_id 1 w = (Ok 0, w'))).
Proof.
  split; [|split].
  - intros error_type. apply get_errors_sent.
  - intros error_type msg w' Hw. split; [|now apply get_errors_value].
    intros b0 b1 b2 b3 b4 b5 b6 b7 Hd.
    exact (get_errors_bytes _ _ _ _ _ Hw _ _ _ _ _ _ _ _ Hd).
  - intros msg w' Hw. split; intros Hd;
      rewrite (get_errors_bytes _ _ _ _ _ Hw _ _ _ _ _ _ _ _ Hd); reflexivity.
Qed.

Lemma get_errors_decodes_witness :
  get_errors 1 1
    (mkWorld 0 [(100, Some (mkMessage 0x23 [1; 0; 0; 0; 0; 0; 0; 0] false))] [])
    = (Ok 1, mkWorld 100 [] [errors_request 1 1]) /\
  get_errors 1 4
    (mkWorld 0 [(100, Some (mkMessage 0x23 [2; 1; 0; 0; 9; 9; 9; 9] false))] [])
    = (Ok (if 4 =? 1
           then 2 + 2 ^ 8 * 1 + 2 ^ 16 * 0 + 2 ^ 24 * 0 +
                2 ^ 32 * 9 + 2 ^ 40 * 9 + 2 ^ 48 * 9 + 2 ^ 56 * 9
           else 2 + 2 ^ 8 * 1 + 2 ^ 16 * 0 + 2 ^ 24 * 0),
       mkWorld 100 [] [errors_request 1 4]).
Proof.
  split.
  - destruct (get_errors_decodes 1
               (mkWorld 0 [(100, Some (mkMessage 0x23 [1; 0; 0; 0; 0; 0; 0; 0]
                                                 false))] []))
      as (_ & _ & Hmotor).
    destruct (Hmotor (mkMessage 0x23 [1; 0; 0; 0; 0; 0; 0; 0] false)
                     (mkWorld 100 [] [errors_request 1 1]) eq_refl)
      as [Hone _].
    apply Hone. reflexivity.
  - destruct (get_errors_decodes 1
               (mkWorld 0 [(100, Some (mkMessage 0x23 [2; 1; 0; 0; 9; 9; 9; 9]
                                                 false))] []))
      as (_ & Hdec & _).
    destruct (Hdec 4 (mkMessage 0x23 [2; 1; 0; 0; 9; 9; 9; 9] false)
                   (mkWorld 100 [] [errors_request 1 4]) eq_refl)
      as [Hbytes _].
    apply Hbytes. reflexivity.
Defined.

(** ** No response and error code 0 *)

(** C2, as stated, fails.  On the silent bus the query for system errors
    goes unanswered, on the other bus it is answered with code 0; the two
    calls of [get_errors] return the same value [0] and leave the same
    frames sent, so nothing the call hands back tells the caller which of
    the two happened. *)
Lemma get_errors_no_response_looks_like_zero :
  fst (wait_for_message 1 0x003 3000 (requested 1 0 silent)) = Ok None /\
  fst (wait_for_message 1 0x003 3000 (requested 1 0 replies_zero)) =
    Ok (Some (mkMessage 0x23 [0; 0; 0; 0; 0; 0; 0; 0] false)) /\
  fst (get_errors 1 0 silent) = Ok 0 /\
  fst (get_errors 1 0 replies_zero) = Ok 0 /\
  sent (snd (get_errors 1 0 silent)) = sent (snd (get_errors 1 0 replies_zero)).
Proof. vm_compute. repeat split; reflexivity. Qed.

(** C2, amended.  For every [error_type], when no matching response comes
    within the 3-second wait, [get_errors] returns the error code 0 and
    that is all: the world is as the wait left it, with the request as the
    only frame sent, and the result is the very value returned when a
    response decodes to 0. *)
Theorem get_errors_timeout_returns_zero (node_id error_type : N) (w : World) :
  fst (wait_for_message node_id 0x003 3000 (requested node_id error_type w))
    = Ok None ->
  get_errors node_id error_type w =
    (Ok 0, snd (wait_for_message node_id 0x003 3000
                  (requested node_id error_type w))) /\
  sent (snd (get_errors node_id error_type w)) =
    sent w ++ [errors_request node_id error_type] /\
  (forall w2 msg w2',
      wait_for_message node_id 0x003 3000 (requested node_id error_type w2)
        = (Ok (Some msg), w2') ->
      data msg = [0; 0; 0; 0; 0; 0; 0; 0] ->
      fst (get_errors node_id error_type w2) =
      fst (get_errors node_id error_type w)).
Proof.
  intros Hto.
  assert (E : get_errors node_id error_type w =
              (Ok 0, snd (wait_for_message node_id 0x003 3000
                            (requested node_id error_type w)))).
  { rewrite get_errors_run.
    destruct (wait_for_message _ _ _ _) as [r w']. cbn [fst snd] in *.
    now subst r. }
  split; [exact E|]. split; [apply get_errors_sent|].
  intros w2 msg w2' Hw Hd. rewrite E. cbn [fst].
  rewrite (get_errors_bytes _ _ _ _ _ Hw _ _ _ _ _ _ _ _ Hd). cbn [fst].
  now destruct (error_type =? 1).
Qed.

Lemma get_errors_timeout_returns_zero_witness :
  get_errors 1 0 silent =
    (Ok 0, mkWorld 3000 [] [errors_request 1 0]) /\
  sent (snd (get_errors 1 0 silent)) = [] ++ [errors_request 1 0] /\
  (forall w2 msg w2',
      wait_for_message 1 0x003 3000 (requested 1 0 w2) = (Ok (Some msg), w2') ->
      data msg = [0; 0; 0; 0; 0; 0; 0; 0] ->
      fst (get_errors 1 0 w2) = fst (get_errors 1 0 silent)).
Proof.
  apply (get_errors_timeout_returns_zero 1 0 silent). vm_compute. reflexivity.
Defined.

(** ** The calibration poller *)

Lemma idle_sample_matches (node_id : N) (e : N * option Message) :
  matches (can_id_of node_id 1) e = false -> idle_sample node_id e = false.
Proof.
  unfold matches, idle_sample. destruct (snd e) as [msg|]; [|reflexivity].
  now intros ->.
Qed.

Lemma no_idle_sample (node_id : N) (l : list (N * option Message)) :
  Forall (fun e => matches (can_id_of node_id 1) e = false) l ->
  existsb (idle_sample node_id) l = false.
Proof.
  induction 1 as [|e l He _ IH]; cbn [existsb]; [reflexivity|].
  now rewrite (idle_sample_matches _ _ He), IH.
Qed.

(** What a wait uses up of the script: outcomes that do not match,
    closed by the frame returned when there is one. *)
Lemma wait_loop_consumed (can_id start_time timeout : N) (w : World) :
  exists c,
    inbox w = c ++ inbox (snd (wait_loop can_id start_time timeout w)) /\
    (inbox (snd (wait_loop can_id start_time timeout w)) <> [] ->
     now (snd (wait_loop can_id start_time timeout w)) = now w + elapsed c) /\
    match fst (wait_loop can_id start_time timeout w) with
    | Some f =>
        exists pre dt,
          c = pre ++ [(dt, Some f)] /\
          Forall (fun e => matches can_id e = false) pre
    | None => Forall (fun e => matches can_id e = false) c
    end.
Proof.
  funelim (wait_loop can_id start_time timeout w); cbn [fst snd].
  - exists []. cbn [elapsed app]. repeat split; [lia|constructor].
  - destruct H as (c & Hcs & Hclk & Hm).
    destruct (recv_step _ _ _ _ Hr)
      as [_ [(Hi & _ & Hi' & _)|(dt & Hi & Hn)]].
    + exists c. split; [congruence|]. split; [|exact Hm].
      intros Hne. exfalso. apply Hne.
      rewrite Hi' in Hcs. symmetry in Hcs. now apply app_eq_nil in Hcs.
    + exists ((dt, None) :: c). split; [rewrite Hi, Hcs at 1; reflexivity|].
      split; [intros Hne; rewrite (Hclk Hne), Hn; cbn [elapsed fst]; lia|].
      destruct (fst (wait_loop _ _ _ w')) as [f|].
      * destruct Hm as (pre & dt' & -> & Hpre).
        exists ((dt, None) :: pre), dt'. split; [reflexivity|].
        constructor; [reflexivity|exact Hpre].
      * constructor; [reflexivity|exact Hm].
  - destruct (recv_step _ _ _ _ Hr) as [_ [(_ & Hm & _)|(dt & Hi & Hn)]];
      [discriminate|].
    exists [(dt, Some msg)]. split; [exact Hi|].
    split; [intros _; rewrite Hn; cbn [elapsed fst]; lia|].
    exists [], dt. split; [reflexivity|constructor].
  - destruct H as (c & Hcs & Hclk & Hm).
    destruct (recv_step _ _ _ _ Hr) as [_ [(_ & Hm' & _)|(dt & Hi & Hn)]];
      [discriminate|].
    assert (He : matches can_id (dt, Some msg) = false)
      by (unfold matches; cbn [snd]; assumption).
    exists ((dt, Some msg) :: c). split; [rewrite Hi, Hcs at 1; reflexivity|].
    split; [intros Hne; rewrite (Hclk Hne), Hn; cbn [elapsed fst]; lia|].
    destruct (fst (wait_loop _ _ _ w')) as [f|].
    + destruct Hm as (pre & dt' & -> & Hpre).
      exists ((dt, Some msg) :: pre), dt'. split; [reflexivity|].
      constructor; assumption.
    + constructor; assumption.
Qed.

Lemma get_item_nth (d : list N) (i : nat) (b : N) :
  get_item d i = Ok b -> nth_error d i = Some b.
Proof.
  unfold get_item. destruct (nth_error d i); [now intros [= ->]|discriminate].
Qed.

(** The heartbeat frame a wait returns, seen as a sample. *)
Lemma idle_sample_returned (node_id dt : N) (msg : Message) (axis_state : N) :
  arbitration_id msg = can_id_of node_id 1 ->
  get_item (data msg) 4 = Ok axis_state ->
  idle_sample node_id (dt, Some msg) = (axis_state =? 1).
Proof.
  intros Hid Hst. unfold idle_sample. cbn [snd].
  now rewrite Hid, N.eqb_refl, (get_item_nth _ _ _ Hst).
Qed.

Lemma sample_ok_returned (node_id dt : N) (msg : Message) :
  arbitration_id msg = can_id_of node_id 1 ->
  sample_ok node_id (dt, Some msg) = true ->
  exists axis_state, get_item (data msg) 4 = Ok axis_state.
Proof.
  intros Hid. unfold sample_ok. cbn [snd].
  rewrite Hid, N.eqb_refl. cbn [negb orb]. intros Hlen.
  apply Nat.leb_le in Hlen. apply get_item_long. lia.
Qed.

(** The surveillance loop on a script whose heartbeat frames hold an axis
    state: it ends without an exception, succeeds exactly when an Idle
    sample is among the outcomes it used up, sends nothing itself, and
    fails only past its time limit. *)
Lemma poll_loop_spec (node_id start_time limit : N) (w : World) :
  forallb (sample_ok node_id) (inbox w) = true ->
  exists c,
    inbox w = c ++ inbox (snd (poll_loop node_id start_time limit w)) /\
    fst (poll_loop node_id start_time limit w) =
      Ok (existsb (idle_sample node_id) c) /\
    sent (snd (poll_loop node_id start_time limit w)) = sent w /\
    (existsb (idle_sample node_id) c = false ->
     limit <= now (snd (poll_loop node_id start_time limit w)) - start_time) /\
    (inbox (snd (poll_loop node_id start_time limit w)) <> [] ->
     now (snd (poll_loop node_id start_time limit w)) = now w + elapsed c).
Proof.
  funelim (poll_loop node_id start_time limit w); cbn [fst snd]; intros Hok;
    try match goal with
      | G : Ok (fst (wait_loop _ _ _ _)) = _ |- _ =>
          (injection G as G; rename G into E) || discriminate G
      end;
    try (pose proof (wait_loop_consumed (can_id_of node_id 1) (now w) 1000 w)
          as (c1 & Hc1 & Hk1 & Hm1);
         pose proof (wait_loop_sent (can_id_of node_id 1) (now w) 1000 w)
          as Hs1;
         pose proof Hok as Hok1;
         rewrite Hc1, forallb_app in Hok1;
         apply andb_true_iff in Hok1 as [Hokc Hok']).
  - exists []. cbn [elapsed app]. repeat split; [|lia].
    intros _. match goal with G : (_ <? _) = false |- _ =>
                exact (proj1 (N.ltb_ge _ _) G) end.
  - rewrite E in Hm1. destruct (H Hok') as (c & Hcs & Hr & Hs & Hd & Hk).
    exists (c1 ++ c). rewrite existsb_app, (no_idle_sample _ _ Hm1).
    cbn [orb]. repeat split; try assumption.
    + rewrite <- app_assoc, <- Hcs. exact Hc1.
    + congruence.
    + intros Hne. rewrite (Hk Hne), elapsed_app, Hk1; [lia|].
      intros Hnil. rewrite Hnil in Hcs. symmetry in Hcs.
      apply app_eq_nil in Hcs. now apply Hne.
  - exfalso. rewrite E in Hm1. destruct Hm1 as (pre & dt & -> & Hpre).
    rewrite forallb_app in Hokc. apply andb_true_iff in Hokc as [_ Hlast].
    cbn [forallb] in Hlast. rewrite andb_true_r in Hlast.
    destruct (sample_ok_returned node_id dt msg) as [st Hst];
      [now apply (wait_loop_returns_match _ _ _ _ _ E)|exact Hlast|].
    congruence.
  - rewrite E in Hm1. destruct Hm1 as (pre & dt & -> & Hpre).
    exists (pre ++ [(dt, Some msg)]).
    rewrite existsb_app. cbn [existsb].
    rewrite (idle_sample_returned node_id dt msg axis_state)
      by (try apply (wait_loop_returns_match _ _ _ _ _ E); assumption).
    match goal with G : (axis_state =? 1) = true |- _ => rewrite G end.
    cbn [orb]. rewrite orb_true_r.
    repeat split; try assumption. discriminate.
  - rewrite E in Hm1. destruct Hm1 as (pre & dt & -> & Hpre).
    destruct (H Hok') as (c & Hcs & Hr & Hs & Hd & Hk).
    exists ((pre ++ [(dt, Some msg)]) ++ c).
    rewrite !existsb_app. cbn [existsb].
    rewrite (idle_sample_returned node_id dt msg axis_state)
      by (try apply (wait_loop_returns_match _ _ _ _ _ E); assumption).
    match goal with G : (axis_state =? 1) = false |- _ => rewrite G end.
    rewrite (no_idle_sample _ _ Hpre). cbn [orb].
    repeat split; try assumption.
    + rewrite <- app_assoc, <- Hcs. exact Hc1.
    + congruence.
    + intros Hne. rewrite (Hk Hne), (elapsed_app (pre ++ _) c), Hk1; [lia|].
      intros Hnil. rewrite Hnil in Hcs. symmetry in Hcs.
      apply app_eq_nil in Hcs. now apply Hne.
Qed.

Lemma test_motor_calibration_eq (node_id : N) :
  test_motor_calibration node_id = calibration node_id 4 15000.
Proof. reflexivity. Qed.

Lemma test_encoder_calibration_eq (node_id : N) :
  test_encoder_calibration node_id = calibration node_id 7 20000.
Proof. reflexivity. Qed.

Lemma calibration_spec (node_id state limit : N) (w : World) :
  forallb (sample_ok node_id) (inbox w) = true ->
  exists c w',
    calibration node_id state limit w =
      (Ok (existsb (idle_sample node_id) c), w') /\
    inbox w = c ++ inbox w' /\
    sent w' =
      sent w ++ axis_state_command node_id state ::
                (if existsb (idle_sample node_id) c
                 then []
                 else [axis_state_command node_id 1]) /\
    (existsb (idle_sample node_id) c = false -> limit <= now w' - now w) /\
    (inbox w' <> [] -> now w' = now w + elapsed c).
Proof.
  intros Hok.
  set (w1 := mkWorld (now w) (inbox w)
                     (sent w ++ [axis_state_command node_id state])).
  destruct (poll_loop_spec node_id (now w) limit w1 Hok)
    as (c & Hc & Hr & Hs & Hd & Hk).
  exists c.
  unfold calibration, bind, send_command, bus_send, time_time, ret.
  cbn [fst snd now inbox sent]. fold (can_id_of node_id 7).
  change (mkWorld (now w) (inbox w)
            (sent w ++ [mkMessage (can_id_of node_id 7)
                                  [state; 0; 0; 0; 0; 0; 0; 0] false]))
    with w1.
  destruct (poll_loop node_id (now w) limit w1) as [r w2].
  cbn [fst snd] in *. subst r.
  destruct (existsb (idle_sample node_id) c); cbn [negb].
  - exists w2. repeat split; assumption.
  - eexists. split; [reflexivity|]. cbn [inbox sent now].
    repeat split; try assumption.
    rewrite Hs. unfold w1. cbn [sent]. now rewrite <- app_assoc.
Qed.








(** The two scenarios of the specification, run. *)
Example motor_calibration_reaches_idle :
  test_motor_calibration 1 calibrates =
  (Ok true, mkWorld 1500 [] [axis_state_command 1 4]).
Proof. vm_compute. reflexivity. Qed.

Example motor_calibration_times_out :
  test_motor_calibration 1 stuck_calibrating =
  (Ok false,
   mkWorld 15000 (repeat (500, Some (heartbeat_frame 4)) 2)
           [axis_state_command 1 4; axis_state_command 1 1]).
Proof. vm_compute. reflexivity. Qed.

(** ** Frames on the wire *)

Section Emits.

Variable P : Message -> Prop.

Lemma emits_quiet {A : Type} (c : M A) :
  (forall w, sent (snd (c w)) = sent w) -> emits P c.
Proof.
  intros H w. exists []. rewrite app_nil_r. split; [apply H|constructor].
Qed.

Lemma emits_ret {A : Type} (a : A) : emits P (ret a).
Proof. now apply emits_quiet. Qed.

Lemma emits_lift {A : Type} (r : result A) : emits P (lift r).
Proof. now apply emits_quiet. Qed.

Lemma emits_time_time : emits P time_time.
Proof. now apply emits_quiet. Qed.

Lemma emits_time_sleep (d : N) : emits P (time_sleep d).
Proof. now apply emits_quiet. Qed.

Lemma emits_send_command (node_id cmd_id : N) (payload : option (list N)) :
  P (mkMessage (can_id_of node_id cmd_id)
               (match payload with None => repeat 0 8 | Some d => d end)
               false) ->
  emits P (send_command node_id cmd_id payload).
Proof.
  intros H w. eexists. split; [reflexivity|]. now repeat constructor.
Qed.

Lemma emits_wait_for_message (node_id cmd_id timeout : N) :
  emits P (wait_for_message node_id cmd_id timeout).
Proof.
  apply emits_quiet. intros w. unfold wait_for_message. cbn [snd].
  apply wait_loop_sent.
Qed.

Lemma poll_loop_sent (node_id start_time limit : N) (w : World) :
  sent (snd (poll_loop node_id start_time limit w)) = sent w.
Proof.
  funelim (poll_loop node_id start_time limit w); cbn [snd];
    try reflexivity;
    try match goal with
      | IH : sent (snd (poll_loop _ _ _ _)) = sent _ |- _ => rewrite IH
      end;
    apply wait_loop_sent.
Qed.

Lemma emits_poll_loop (node_id start_time limit : N) :
  emits P (poll_loop node_id start_time limit).
Proof. apply emits_quiet, poll_loop_sent. Qed.

Lemma emits_bind {A B : Type} (c : M A) (k : A -> M B) :
  emits P c -> (forall a, emits P (k a)) -> emits P (bind c k).
Proof.
  intros Hc Hk w. unfold bind.
  destruct (Hc w) as (new1 & E1 & F1).
  destruct (c w) as [[a|e] w1]; cbn [snd] in *.
  - destruct (Hk a w1) as (new2 & E2 & F2).
    exists (new1 ++ new2). rewrite E2, E1, app_assoc.
    split; [reflexivity|]. apply Forall_app. now split.
  - now exists new1.
Qed.

End Emits.

(** The frames of the typed operations are in wire format. *)
Lemma wire_format_command (node_id cmd_id b : N) :
  In cmd_id catalogue ->
  cmd_id = 0x003 \/ cmd_id = 0x007 \/ b = 0 ->
  wire_format node_id
    (mkMessage (can_id_of node_id cmd_id) [b; 0; 0; 0; 0; 0; 0; 0] false).
Proof.
  intros Hin Hb. split; [reflexivity|]. split; [cbn; lia|].
  exists cmd_id, b. repeat split; assumption.
Qed.

Ltac wire_format_tac :=
  apply wire_format_command; [cbn; tauto | auto].

Ltac emits_tac :=
  repeat first
    [ apply emits_bind; [|intros]
    | apply emits_ret
    | apply emits_lift
    | apply emits_time_time
    | apply emits_time_sleep
    | apply emits_wait_for_message
    | apply emits_poll_loop
    | apply emits_send_command; wire_format_tac
    | match goal with
      | |- emits _ (match ?x with _ => _ end) => destruct x
      | |- emits _ (if ?x then _ else _) => destruct x
      end ].

Lemma emits_get_heartbeat (node_id : N) :
  emits (wire_format node_id) (get_heartbeat node_id).
Proof. unfold get_heartbeat. emits_tac. Qed.

Lemma emits_get_errors (node_id error_type : N) :
  emits (wire_format node_id) (get_errors node_id error_type).
Proof. unfold get_errors. emits_tac. Qed.

Lemma emits_get_encoder_estimates (node_id : N) :
  emits (wire_format node_id) (get_encoder_estimates node_id).
Proof. unfold get_encoder_estimates. emits_tac. Qed.

Lemma emits_test_motor_calibration (node_id : N) :
  emits (wire_format node_id) (test_motor_calibration node_id).
Proof. unfold test_motor_calibration. emits_tac. Qed.

Lemma emits_test_encoder_calibration (node_id : N) :
  emits (wire_format node_id) (test_encoder_calibration node_id).
Proof. unfold test_encoder_calibration. emits_tac. Qed.

Lemma emits_save_and_reboot (node_id : N) :
  emits (wire_format node_id) (save_and_reboot node_id).
Proof. unfold save_and_reboot. emits_tac. Qed.

Lemma emits_full_diagnostic (node_id : N) :
  emits (wire_format node_id) (full_diagnostic node_id).
Proof.
  unfold full_diagnostic.
  apply emits_bind; [apply emits_get_heartbeat|].
  intros [[state|] error]; [|apply emits_ret].
  repeat (apply emits_bind; intros;
          auto using emits_get_errors, emits_get_encoder_estimates,
            emits_test_motor_calibration, emits_test_encoder_calibration,
            emits_save_and_reboot, emits_ret).
Qed.

(** C8. Whatever operation the client performs, in whatever world, and
    however it ends, the frames it has added to the bus are all in wire
    format: standard (non-extended) identifier [(node_id << 5) | cmd_id]
    for the client's node id and a command of the catalogue, and a payload
    of eight bytes, the data byte (if the command has one) followed by
    zeros. *)
Theorem sent_frames_wire_format (node_id : N) (op : operation) (w : World) :
  exists new,
    sent (perform node_id op w) = sent w ++ new /\
    Forall (wire_format node_id) new.
Proof.
  destruct op; cbn [perform].
  - apply emits_get_heartbeat.
  - apply emits_get_errors.
  - apply emits_test_motor_calibration.
  - apply emits_test_encoder_calibration.
  - apply emits_get_encoder_estimates.
  - apply emits_save_and_reboot.
  - apply emits_full_diagnostic.
Qed.

(** ** The diagnostic sequence *)

Lemma full_width_sample_ok (node_id : N) (l : list (N * option Message)) :
  forallb full_width l = true -> forallb (sample_ok node_id) l = true.
Proof.
  induction l as [|e l IH]; cbn [forallb]; [reflexivity|].
  intros H. apply andb_true_iff in H as [He Hl].
  rewrite (IH Hl), andb_true_r.
  unfold full_width in He. unfold sample_ok.
  destruct (snd e) as [msg|]; [|reflexivity].
  apply Nat.leb_le in He.
  replace (5 <=? length (data msg))%nat with true
    by (symmetry; apply Nat.leb_le; lia).
  apply orb_true_r.
Qed.

(** A wait on a script of full-width frames leaves such a script, and
    the frame it returns, if any, has 8 bytes or more. *)
Lemma wait_for_message_full_width (node_id cmd_id timeout : N) (w : World) :
  forallb full_width (inbox w) = true ->
  exists r w',
    wait_for_message node_id cmd_id timeout w = (Ok r, w') /\
    forallb full_width (inbox w') = true /\
    sent w' = sent w /\
    match r with
    | Some msg => (8 <= length (data msg))%nat
    | None => True
    end.
Proof.
  intros Hok. unfold wait_for_message.
  destruct (wait_loop_consumed (can_id_of node_id cmd_id) (now w) timeout w)
    as (c & Hc & _ & Hm).
  eexists _, _. split; [reflexivity|].
  rewrite Hc, forallb_app in Hok. apply andb_true_iff in Hok as [Hokc Hok'].
  split; [exact Hok'|]. split; [apply wait_loop_sent|].
  destruct (fst (wait_loop _ _ _ w)) as [msg|]; [|exact I].
  destruct Hm as (pre & dt & -> & _).
  rewrite forallb_app in Hokc. apply andb_true_iff in Hokc as [_ Hlast].
  cbn [forallb] in Hlast. rewrite andb_true_r in Hlast.
  now apply Nat.leb_le in Hlast.
Qed.

Lemma unpack_I_slice (d : list N) :
  (4 <= length d)%nat -> unpack_I (slice d 0 4) = Ok (le_value (firstn 4 d)).
Proof.
  intros H. unfold unpack_I. rewrite slice_0_length, Nat.min_l by assumption.
  reflexivity.
Qed.

Lemma unpack_Q_slice (d : list N) :
  (8 <= length d)%nat -> unpack_Q (slice d 0 8) = Ok (le_value (firstn 8 d)).
Proof.
  intros H. unfold unpack_Q. rewrite slice_0_length, Nat.min_l by assumption.
  reflexivity.
Qed.

Lemma unpack_f_slice (d : list N) (lo : nat) :
  (lo + 4 <= length d)%nat ->
  exists v, unpack_f (slice d lo (lo + 4)) = Ok v.
Proof.
  intros H. unfold unpack_f. rewrite slice_length.
  replace (Nat.min (lo + 4 - lo) (length d - lo)) with 4%nat by lia.
  eexists. reflexivity.
Qed.

(** On full-width frames each step of the sequence returns normally. *)
Lemma get_heartbeat_full_width (node_id : N) (w : World) :
  forallb full_width (inbox w) = true ->
  exists x w',
    get_heartbeat node_id w = (Ok x, w') /\
    forallb full_width (inbox w') = true /\
    (x = (None, None) \/ exists state error, x = (Some state, Some error)).
Proof.
  intros Hok. rewrite get_heartbeat_run.
  destruct (wait_for_message_full_width node_id 1 3000 w Hok)
    as (r & w' & -> & Hok' & _ & Hlen).
  destruct r as [msg|].
  - destruct (get_item_long (data msg) 4) as [st ->]; [lia|].
    destruct (get_item_long (data msg) 5) as [fl ->]; [lia|].
    rewrite unpack_I_slice by lia.
    eexists _, _. split; [reflexivity|]. split; [exact Hok'|].
    right. now eexists _, _.
  - eexists _, _. split; [reflexivity|]. split; [exact Hok'|]. now left.
Qed.

Lemma get_errors_full_width (node_id error_type : N) (w : World) :
  forallb full_width (inbox w) = true ->
  exists v w',
    get_errors node_id error_type w = (Ok v, w') /\
    forallb full_width (inbox w') = true /\
    sent w' = sent w ++ [errors_request node_id error_type].
Proof.
  intros Hok.
  pose proof (get_errors_sent node_id error_type w) as Hs.
  rewrite get_errors_run in *.
  destruct (wait_for_message_full_width node_id 3 3000
              (requested node_id error_type w) Hok)
    as (r & w' & E & Hok' & _ & Hlen).
  rewrite E in *. destruct r as [msg|]; cbn [snd] in Hs.
  - rewrite unpack_I_slice, unpack_Q_slice by lia.
    destruct (error_type =? 0); [|destruct (error_type =? 1)];
      eexists _, _; (split; [reflexivity|]); split; assumption.
  - eexists _, _. split; [reflexivity|]. split; assumption.
Qed.

Lemma get_encoder_estimates_full_width (node_id : N) (w : World) :
  forallb full_width (inbox w) = true ->
  exists pv w',
    get_encoder_estimates node_id w = (Ok pv, w') /\
    forallb full_width (inbox w') = true /\
    sent w' = sent w ++ [plain_command node_id 0x009].
Proof.
  intros Hok.
  unfold get_encoder_estimates, bind, send_command, bus_send, lift, ret.
  cbn [fst snd repeat].
  set (w1 := mkWorld (now w) (inbox w) _).
  destruct (wait_for_message_full_width node_id 9 3000 w1 Hok)
    as (r & w' & E & Hok' & Hs & Hlen).
  rewrite E. destruct r as [msg|].
  - destruct (unpack_f_slice (data msg) 0) as [pos Hpos]; [cbn; lia|].
    destruct (unpack_f_slice (data msg) 4) as [vel Hvel]; [cbn; lia|].
    cbn [Nat.add] in Hpos, Hvel. rewrite Hpos, Hvel.
    eexists _, _. split; [reflexivity|]. split; [exact Hok'|exact Hs].
  - eexists _, _. split; [reflexivity|]. split; [exact Hok'|exact Hs].
Qed.

Lemma calibration_full_width (node_id state limit : N) (w : World) :
  forallb full_width (inbox w) = true ->
  exists ok w',
    calibration node_id state limit w = (Ok ok, w') /\
    forallb full_width (inbox w') = true /\
    sent w' = sent w ++ axis_state_command node_id state ::
                        (if ok then [] else [axis_state_command node_id 1]).
Proof.
  intros Hok.
  destruct (calibration_spec node_id state limit w
              (full_width_sample_ok node_id _ Hok))
    as (c & w' & E & Hc & Hs & _ & _).
  eexists _, w'. split; [exact E|].
  rewrite Hc, forallb_app in Hok. apply andb_true_iff in Hok as [_ Hok'].
  split; assumption.
Qed.

Lemma save_and_reboot_run (node_id : N) (w : World) :
  save_and_reboot node_id w =
  (Ok tt, mkWorld (now w + 3000 + 3000) (inbox w)
                  ((sent w ++ [plain_command node_id 0x01F])
                     ++ [plain_command node_id 0x016])).
Proof. reflexivity. Qed.

(** The frames each step leaves in the log. *)
Lemma get_heartbeat_quiet (node_id : N) (w : World) :
  sent (snd (get_heartbeat node_id w)) = sent w.
Proof.
  rewrite get_heartbeat_run.
  pose proof (wait_loop_sent (can_id_of node_id 1) (now w) 3000 w) as Hs.
  unfold wait_for_message. cbn [fst snd] in *.
  destruct (fst (wait_loop _ _ _ _)); cbn [snd]; exact Hs.
Qed.

Lemma get_encoder_estimates_run (node_id : N) (w : World) :
  get_encoder_estimates node_id w =
  match wait_for_message node_id 0x009 3000 (estimates_requested node_id w) with
  | (Ok (Some msg), w') =>
      (match unpack_f (slice (data msg) 0 4), unpack_f (slice (data msg) 4 8) with
       | Ok pos, Ok vel => Ok (Some pos, Some vel)
       | Raise e, _ => Raise e
       | Ok _, Raise e => Raise e
       end, w')
  | (Ok None, w') => (Ok (None, None), w')
  | (Raise e, w') => (Raise e, w')
  end.
Proof.
  unfold get_encoder_estimates, bind, send_command, bus_send, estimates_requested,
    plain_command, can_id_of, wait_for_message, lift, ret. cbn [fst snd repeat].
  destruct (fst (wait_loop _ _ _ _)) as [msg|]; [|reflexivity].
  destruct (unpack_f (slice (data msg) 0 4)); [|reflexivity].
  destruct (unpack_f (slice (data msg) 4 8)); reflexivity.
Qed.

Lemma get_encoder_estimates_sent (node_id : N) (w : World) :
  sent (snd (get_encoder_estimates node_id w)) =
  sent w ++ [plain_command node_id 0x009].
Proof.
  rewrite get_encoder_estimates_run.
  pose proof (wait_loop_sent (can_id_of node_id 9)
                (now (estimates_requested node_id w)) 3000
                (estimates_requested node_id w)) as Hs.
  unfold wait_for_message. cbn [fst snd] in *.
  destruct (fst (wait_loop _ _ _ _)) as [msg|]; cbn [snd]; exact Hs.
Qed.

Lemma calibration_sent (node_id state limit : N) (w : World) (ok : bool)
    (w' : World) :
  calibration node_id state limit w = (Ok ok, w') ->
  sent w' = sent w ++ axis_state_command node_id state ::
                      (if ok then [] else [axis_state_command node_id 1]).
Proof.
  unfold calibration, bind, send_command, bus_send, time_time, ret.
  cbn [fst snd now inbox sent]. fold (can_id_of node_id 7).
  set (w1 := mkWorld (now w) (inbox w) _).
  pose proof (poll_loop_sent node_id (now w) limit w1) as Hs.
  destruct (poll_loop node_id (now w) limit w1) as [[[|]|e1] w2];
    cbn [negb fst snd] in *; try discriminate.
  - intros [= <- <-]. exact Hs.
  - intros [= <- <-]. cbn [sent]. rewrite Hs. unfold w1. cbn [sent].
    now rewrite <- app_assoc.
Qed.

Lemma calibration_raise_sent (node_id state limit : N) (w : World) (e : exn)
    (w' : World) :
  calibration node_id state limit w = (Raise e, w') ->
  sent w' = sent w ++ [axis_state_command node_id state].
Proof.
  unfold calibration, bind, send_command, bus_send, time_time, ret.
  cbn [fst snd now inbox sent]. fold (can_id_of node_id 7).
  set (w1 := mkWorld (now w) (inbox w) _).
  pose proof (poll_loop_sent node_id (now w) limit w1) as Hs.
  destruct (poll_loop node_id (now w) limit w1) as [[[|]|e1] w2];
    cbn [negb fst snd] in *; try discriminate.
  intros [= <- <-]. exact Hs.
Qed.

(** [full_diagnostic] past a heartbeat that was received: the code of
    steps 2 to 7, in one equation. *)
Lemma full_diagnostic_after_heartbeat (node_id : N) (w w1 : World)
    (state : N) (error : option N) :
  get_heartbeat node_id w = (Ok (Some state, error), w1) ->
  full_diagnostic node_id w =
  (system_error <- get_errors node_id 0 ;;
   motor_error <- get_errors node_id 1 ;;
   encoder_error <- get_errors node_id 4 ;;
   pv <- get_encoder_estimates node_id ;;
   motor_ok <- test_motor_calibration node_id ;;
   encoder_ok <- test_encoder_calibration node_id ;;
   save_and_reboot node_id ;;;
   ret ((system_error =? 0) && (motor_error =? 0) &&
        (encoder_error =? 0) && motor_ok && encoder_ok)) w1.
Proof.
  intros E. unfold full_diagnostic. unfold bind at 1. now rewrite E.
Qed.

(** C1, as stated, fails.  On a silent bus the heartbeat wait times out
    and [full_diagnostic] ends there: after the 3 seconds of that wait the
    result is [False] and nothing has been sent, whereas each later step
    (error queries, encoder estimates, the two calibrations, save and
    reboot) begins by sending a command and would have left its frame in
    the log. *)
Lemma full_diagnostic_stops_without_heartbeat :
  get_heartbeat 1 silent = (Ok (None, None), mkWorld 3000 [] []) /\
  full_diagnostic 1 silent = (Ok false, mkWorld 3000 [] []) /\
  sent (snd (get_errors 1 0 (mkWorld 3000 [] []))) = [errors_request 1 0] /\
  sent (snd (save_and_reboot 1 (mkWorld 3000 [] []))) =
    [plain_command 1 0x01F; plain_command 1 0x016].
Proof. vm_compute. repeat split; reflexivity. Qed.

(** C1, amended.  For every script of the bus.  When the heartbeat wait
    times out, [full_diagnostic] runs none of the later steps: it sends
    nothing and returns [False] at once, in the world that wait left.
    When a heartbeat is received, every later step runs, in the fixed
    order and on whatever the previous one left and returned (an error
    code that is not 0, a query nobody answered, a calibration that
    failed): get-errors for types 0, 1 and 4, encoder estimates, motor
    calibration, encoder calibration, save and reboot; the result is the
    conjunction of the three error codes being 0 and the two calibrations
    having succeeded, and the frames sent are those of the steps, with one
    corrective Idle command after each calibration that failed.  Only an
    exception, raised while a matched reply that is too short is decoded,
    ends the run before save and reboot: it leaves [full_diagnostic] from
    the step that raised it, with the frames sent up to that step. *)
Theorem full_diagnostic_steps (node_id : N) (w : World) :
  match get_heartbeat node_id w with
  | (Raise e, w1) =>
      full_diagnostic node_id w = (Raise e, w1) /\ sent w1 = sent w
  | (Ok (None, _), w1) =>
      full_diagnostic node_id w = (Ok false, w1) /\ sent w1 = sent w
  | (Ok (Some _, _), w1) =>
  match get_errors node_id 0 w1 with
  | (Raise e, w2) =>
      full_diagnostic node_id w = (Raise e, w2) /\
      sent w2 = sent w ++ [errors_request node_id 0]
  | (Ok system_error, w2) =>
  match get_errors node_id 1 w2 with
  | (Raise e, w3) =>
      full_diagnostic node_id w = (Raise e, w3) /\
      sent w3 = sent w ++ [errors_request node_id 0; errors_request node_id 1]
  | (Ok motor_error, w3) =>
  match get_errors node_id 4 w3 with
  | (Raise e, w4) =>
      full_diagnostic node_id w = (Raise e, w4) /\
      sent w4 = sent w ++ [errors_request node_id 0; errors_request node_id 1;
                           errors_request node_id 4]
  | (Ok encoder_error, w4) =>
  match get_encoder_estimates node_id w4 with
  | (Raise e, w5) =>
      full_diagnostic node_id w = (Raise e, w5) /\
      sent w5 = sent w ++ [errors_request node_id 0; errors_request node_id 1;
                           errors_request node_id 4; plain_command node_id 0x009]
  | (Ok _, w5) =>
  match test_motor_calibration node_id w5 with
  | (Raise e, w6) =>
      full_diagnostic node_id w = (Raise e, w6) /\
      sent w6 = sent w ++ [errors_request node_id 0; errors_request node_id 1;
                           errors_request node_id 4; plain_command node_id 0x009;
                           axis_state_command node_id 4]
  | (Ok motor_ok, w6) =>
  match test_encoder_calibration node_id w6 with
  | (Raise e, w7) =>
      full_diagnostic node_id w = (Raise e, w7) /\
      sent w7 =
        sent w ++
        [errors_request node_id 0; errors_request node_id 1;
         errors_request node_id 4; plain_command node_id 0x009] ++
        axis_state_command node_id 4 ::
          (if motor_ok then [] else [axis_state_command node_id 1]) ++
        [axis_state_command node_id 7]
  | (Ok encoder_ok, w7) =>
      full_diagnostic node_id w =
        (Ok ((system_error =? 0) && (motor_error =? 0) &&
             (encoder_error =? 0) && motor_ok && encoder_ok),
         snd (save_and_reboot node_id w7)) /\
      sent (snd (save_and_reboot node_id w7)) =
        sent w ++
        [errors_request node_id 0; errors_request node_id 1;
         errors_request node_id 4; plain_command node_id 0x009] ++
        axis_state_command node_id 4 ::
          (if motor_ok then [] else [axis_state_command node_id 1]) ++
        axis_state_command node_id 7 ::
          (if encoder_ok then [] else [axis_state_command node_id 1]) ++
        [plain_command node_id 0x01F; plain_command node_id 0x016]
  end end end end end end
  end.
Proof.
  pose proof (get_heartbeat_quiet node_id w) as S1.
  destruct (get_heartbeat node_id w) as [[[[state|] error]|e] w1] eqn:Ehb;
    cbn [snd] in S1;
    [|split; [|exact S1];
      unfold full_diagnostic; unfold bind at 1; now rewrite Ehb ..].
  pose proof (full_diagnostic_after_heartbeat _ _ _ _ _ Ehb) as Hfull.
  pose proof (get_errors_sent node_id 0 w1) as S2.
  destruct (get_errors node_id 0 w1) as [[se|e] w2] eqn:E2; cbn [snd] in S2;
    rewrite S1 in S2; unfold bind at 1 in Hfull; rewrite E2 in Hfull;
    [|now split].
  pose proof (get_errors_sent node_id 1 w2) as S3.
  destruct (get_errors node_id 1 w2) as [[me|e] w3] eqn:E3; cbn [snd] in S3;
    rewrite S2, <- app_assoc in S3; unfold bind at 1 in Hfull;
    rewrite E3 in Hfull; [|now split].
  pose proof (get_errors_sent node_id 4 w3) as S4.
  destruct (get_errors node_id 4 w3) as [[ee|e] w4] eqn:E4; cbn [snd] in S4;
    rewrite S3, <- app_assoc in S4; unfold bind at 1 in Hfull;
    rewrite E4 in Hfull; [|now split].
  pose proof (get_encoder_estimates_sent node_id w4) as S5.
  destruct (get_encoder_estimates node_id w4) as [[pv|e] w5] eqn:E5;
    cbn [snd] in S5; rewrite S4, <- app_assoc in S5;
    unfold bind at 1 in Hfull; rewrite E5 in Hfull; [|now split].
  destruct (test_motor_calibration node_id w5) as [[mok|e] w6] eqn:E6;
    unfold bind at 1 in Hfull; rewrite E6 in Hfull;
    rewrite test_motor_calibration_eq in E6.
  2: { split; [exact Hfull|].
       rewrite (calibration_raise_sent _ _ _ _ _ _ E6), S5, <- app_assoc.
       reflexivity. }
  pose proof (calibration_sent _ _ _ _ _ _ E6) as S6.
  rewrite S5, <- app_assoc in S6.
  destruct (test_encoder_calibration node_id w6) as [[eok|e] w7] eqn:E7;
    unfold bind at 1 in Hfull; rewrite E7 in Hfull;
    rewrite test_encoder_calibration_eq in E7.
  2: { split; [exact Hfull|].
       rewrite (calibration_raise_sent _ _ _ _ _ _ E7), S6.
       repeat rewrite <- app_assoc. reflexivity. }
  pose proof (calibration_sent _ _ _ _ _ _ E7) as S7.
  unfold bind at 1 in Hfull. rewrite save_and_reboot_run in *.
  cbn [snd sent ret] in *.
  split; [exact Hfull|].
  rewrite S7, S6. repeat rewrite <- app_assoc. reflexivity.
Qed.

(** A run whose replies to get-errors 0 and 4 have four data bytes: every
    step runs and the diagnostic passes. *)
Lemma full_diagnostic_steps_witness :
  forallb full_width (inbox answers_in_four_bytes) = false /\
  full_diagnostic 1 answers_in_four_bytes =
    (Ok true,
     mkWorld 6340 []
       [errors_request 1 0; errors_request 1 1; errors_request 1 4;
        plain_command 1 0x009; axis_state_command 1 4;
        axis_state_command 1 7;
        plain_command 1 0x01F; plain_command 1 0x016]).
Proof.
  split; [reflexivity|].
  generalize (full_diagnostic_steps 1 answers_in_four_bytes).
  vm_compute. intros [H _]. exact H.
Defined.

(** On frames of full width (8 data bytes or more) no decoder raises, and
    the run ends in one of the two ways: [False] at once when the
    heartbeat wait times out, or every step run when it does not. *)
Lemma full_diagnostic_full_width (node_id : N) (w : World) :
  forallb full_width (inbox w) = true ->
  (exists x w1,
      get_heartbeat node_id w = (Ok x, w1) /\
      (x = (None, None) \/ exists state error, x = (Some state, Some error))) /\
  (forall w1,
      get_heartbeat node_id w = (Ok (None, None), w1) ->
      full_diagnostic node_id w = (Ok false, w1)) /\
  (forall state error w1,
      get_heartbeat node_id w = (Ok (Some state, Some error), w1) ->
      exists system_error w2 motor_error w3 encoder_error w4 pv w5
             motor_ok w6 encoder_ok w7,
        get_errors node_id 0 w1 = (Ok system_error, w2) /\
        get_errors node_id 1 w2 = (Ok motor_error, w3) /\
        get_errors node_id 4 w3 = (Ok encoder_error, w4) /\
        get_encoder_estimates node_id w4 = (Ok pv, w5) /\
        test_motor_calibration node_id w5 = (Ok motor_ok, w6) /\
        test_encoder_calibration node_id w6 = (Ok encoder_ok, w7) /\
        full_diagnostic node_id w =
          (Ok ((system_error =? 0) && (motor_error =? 0) &&
               (encoder_error =? 0) && motor_ok && encoder_ok),
           snd (save_and_reboot node_id w7)) /\
        sent (snd (full_diagnostic node_id w)) =
          sent w1 ++
          [errors_request node_id 0; errors_request node_id 1;
           errors_request node_id 4; plain_command node_id 0x009] ++
          axis_state_command node_id 4 ::
            (if motor_ok then [] else [axis_state_command node_id 1]) ++
          axis_state_command node_id 7 ::
            (if encoder_ok then [] else [axis_state_command node_id 1]) ++
          [plain_command node_id 0x01F; plain_command node_id 0x016]).
Proof.
  intros Hok.
  destruct (get_heartbeat_full_width node_id w Hok) as (x & w1 & Ehb & Hok1 & Hx).
  split; [now exists x, w1|]. split.
  - intros w1' E. unfold full_diagnostic. unfold bind at 1. now rewrite E.
  - intros state error w1' E.
    rewrite E in Ehb. injection Ehb as _ <-.
    destruct (get_errors_full_width node_id 0 w1' Hok1)
      as (se & w2 & E2 & Hok2 & S2).
    destruct (get_errors_full_width node_id 1 w2 Hok2)
      as (me & w3 & E3 & Hok3 & S3).
    destruct (get_errors_full_width node_id 4 w3 Hok3)
      as (ee & w4 & E4 & Hok4 & S4).
    destruct (get_encoder_estimates_full_width node_id w4 Hok4)
      as (pv & w5 & E5 & Hok5 & S5).
    destruct (calibration_full_width node_id 4 15000 w5 Hok5)
      as (mok & w6 & E6 & Hok6 & S6).
    destruct (calibration_full_width node_id 7 20000 w6 Hok6)
      as (eok & w7 & E7 & Hok7 & S7).
    rewrite <- test_motor_calibration_eq in E6.
    rewrite <- test_encoder_calibration_eq in E7.
    exists se, w2, me, w3, ee, w4, pv, w5, mok, w6, eok, w7.
    assert (Efull : full_diagnostic node_id w =
                    (Ok ((se =? 0) && (me =? 0) && (ee =? 0) && mok && eok),
                     snd (save_and_reboot node_id w7))).
    { rewrite (full_diagnostic_after_heartbeat _ _ _ _ _ E).
      unfold bind at 1. rewrite E2. unfold bind at 1. rewrite E3.
      unfold bind at 1. rewrite E4. unfold bind at 1. rewrite E5.
      unfold bind at 1. rewrite E6. unfold bind at 1. rewrite E7.
      unfold bind at 1. rewrite save_and_reboot_run. reflexivity. }
    repeat (split; [assumption|]).
    rewrite Efull, save_and_reboot_run. cbn [snd sent].
    rewrite S7, S6, S5, S4, S3, S2.
    repeat rewrite <- app_assoc. cbn [app]. reflexivity.
Qed.

(** The run on that bus: the heartbeat is received, every later step
    runs unanswered, both calibrations time out and are corrected. *)
Example full_diagnostic_one_heartbeat :
  full_diagnostic 1 one_heartbeat =
    (Ok false,
     mkWorld 53100 []
       [errors_request 1 0; errors_request 1 1; errors_request 1 4;
        plain_command 1 0x009;
        axis_state_command 1 4; axis_state_command 1 1;
        axis_state_command 1 7; axis_state_command 1 1;
        plain_command 1 0x01F; plain_command 1 0x016]).
Proof. vm_compute. reflexivity. Qed.

(** ** Runs of the waiter and of the decoders *)

Example wait_for_message_skips_other_traffic :
  wait_for_message 1 0x001 3000 busy_then_heartbeat =
  (Ok (Some (heartbeat_frame 8)), mkWorld 1000 [] []).
Proof. vm_compute. reflexivity. Qed.

Example wait_for_message_times_out_under_traffic :
  wait_for_message 1 0x001 3000 busy_without_heartbeat =
  (Ok None,
   mkWorld 3000
     (repeat (100, Some (mkMessage 0x41 [0; 0; 0; 0; 8; 0; 0; 0] false)) 10) []).
Proof. vm_compute. reflexivity. Qed.

(** A heartbeat of five bytes, a motor-error reply of four. *)
Example get_heartbeat_five_bytes :
  get_heartbeat 1 (mkWorld 0 [(100, Some (mkMessage 0x21 [0; 0; 0; 0; 1] false))] []) =
  (Raise IndexError, mkWorld 100 [] []).
Proof. vm_compute. reflexivity. Qed.

Example get_errors_motor_four_bytes :
  get_errors 1 1 (mkWorld 0 [(100, Some (mkMessage 0x23 [1; 0; 0; 0] false))] []) =
  (Raise StructError, mkWorld 100 [] [errors_request 1 1]).
Proof. vm_compute. reflexivity. Qed.

Example get_errors_motor_one :
  get_errors 1 1
    (mkWorld 0 [(100, Some (mkMessage 0x23 [1; 0; 0; 0; 0; 0; 0; 0] false))] []) =
  (Ok 1, mkWorld 100 [] [errors_request 1 1]).
Proof. vm_compute. reflexivity. Qed.

Example get_heartbeat_idle :
  get_heartbeat 1 (mkWorld 0 [(100, Some (mkMessage 0x21 [0; 0; 0; 0; 1; 0; 0; 0] false))] []) =
  (Ok (Some 1, Some 0), mkWorld 100 [] []).
Proof. vm_compute. reflexivity. Qed.

(** * Further properties of the code *)

(** ** Encoder estimates and heartbeat decoding *)

(** X1. [get_encoder_estimates] sends one frame, command [0x009] with
    eight zero bytes, whatever follows.  When the 3-second wait for the
    reply times out it returns [(None, None)]; a reply of fewer than 8
    bytes raises [struct.error]; a reply of 8 bytes or more gives the
    little-endian 32-bit words of bytes 0-3 (position) and 4-7 (velocity),
    whatever bytes come after them. *)
Theorem get_encoder_estimates_outcome (node_id : N) (w : World) :
  sent (snd (get_encoder_estimates node_id w)) =
    sent w ++ [mkMessage (N.lor (N.shiftl node_id 5) 0x009)
                         [0; 0; 0; 0; 0; 0; 0; 0] false] /\
  (forall w',
      wait_for_message node_id 0x009 3000 (estimates_requested node_id w)
        = (Ok None, w') ->
      get_encoder_estimates node_id w = (Ok (None, None), w')) /\
  (forall msg w',
      wait_for_message node_id 0x009 3000 (estimates_requested node_id w)
        = (Ok (Some msg), w') ->
      (length (data msg) < 8)%nat ->
      get_encoder_estimates node_id w = (Raise StructError, w')) /\
  (forall msg w' b0 b1 b2 b3 b4 b5 b6 b7 tail,
      wait_for_message node_id 0x009 3000 (estimates_requested node_id w)
        = (Ok (Some msg), w') ->
      data msg = b0 :: b1 :: b2 :: b3 :: b4 :: b5 :: b6 :: b7 :: tail ->
      get_encoder_estimates node_id w =
      (Ok (Some (b0 + 2 ^ 8 * b1 + 2 ^ 16 * b2 + 2 ^ 24 * b3),
           Some (b4 + 2 ^ 8 * b5 + 2 ^ 16 * b6 + 2 ^ 24 * b7)), w')).
Proof.
  split; [|split; [|split]].
  - rewrite get_encoder_estimates_run.
    pose proof (wait_loop_sent (can_id_of node_id 9)
                  (now (estimates_requested node_id w)) 3000
                  (estimates_requested node_id w)) as Hs.
    unfold wait_for_message. cbn [fst snd] in *.
    destruct (fst (wait_loop _ _ _ _)) as [msg|]; cbn [snd]; exact Hs.
  - intros w' Hw. now rewrite get_encoder_estimates_run, Hw.
  - intros msg w' Hw Hlen. rewrite get_encoder_estimates_run, Hw.
    unfold unpack_f. rewrite !slice_length.
    destruct (Nat.le_gt_cases 4 (length (data msg))) as [H4|H4].
    + replace (Nat.min (4 - 0) (length (data msg) - 0)) with 4%nat by lia.
      cbn [Nat.eqb].
      replace (Nat.min (8 - 4) (length (data msg) - 4) =? 4)%nat with false
        by (symmetry; apply Nat.eqb_neq; lia).
      reflexivity.
    + replace (Nat.min (4 - 0) (length (data msg) - 0) =? 4)%nat with false
        by (symmetry; apply Nat.eqb_neq; lia).
      reflexivity.
  - intros msg w' b0 b1 b2 b3 b4 b5 b6 b7 tail Hw Hd.
    rewrite get_encoder_estimates_run, Hw, Hd.
    unfold unpack_f, slice. cbn [Nat.sub skipn firstn length Nat.eqb].
    rewrite !le_value_4. reflexivity.
Qed.

Lemma get_encoder_estimates_outcome_witness :
  get_encoder_estimates 1
    (mkWorld 0 [(100, Some (mkMessage 0x29 [0; 0; 72; 65; 0; 0; 64; 192] false))] [])
  = (Ok (Some (0 + 2 ^ 8 * 0 + 2 ^ 16 * 72 + 2 ^ 24 * 65),
         Some (0 + 2 ^ 8 * 0 + 2 ^ 16 * 64 + 2 ^ 24 * 192)),
     mkWorld 100 [] [plain_command 1 0x009]) /\
  get_encoder_estimates 1
    (mkWorld 0 [(100, Some (mkMessage 0x29 [0; 0; 72; 65; 0; 0] false))] [])
  = (Raise StructError, mkWorld 100 [] [plain_command 1 0x009]) /\
  get_encoder_estimates 1 silent
  = (Ok (None, None), mkWorld 3000 [] [plain_command 1 0x009]).
Proof.
  split; [|split].
  - destruct (get_encoder_estimates_outcome 1
               (mkWorld 0 [(100, Some (mkMessage 0x29
                                         [0; 0; 72; 65; 0; 0; 64; 192] false))] []))
      as (_ & _ & _ & Hdec).
    apply (Hdec (mkMessage 0x29 [0; 0; 72; 65; 0; 0; 64; 192] false) _
                0 0 72 65 0 0 64 192 []); reflexivity.
  - destruct (get_encoder_estimates_outcome 1
               (mkWorld 0 [(100, Some (mkMessage 0x29 [0; 0; 72; 65; 0; 0] false))] []))
      as (_ & _ & Hshort & _).
    apply (Hshort (mkMessage 0x29 [0; 0; 72; 65; 0; 0] false));
      [reflexivity|cbn; lia].
  - destruct (get_encoder_estimates_outcome 1 silent) as (_ & Hto & _).
    apply Hto. reflexivity.
Defined.

(** X2. A heartbeat of 6 bytes or more is decoded by [get_heartbeat] as
    the axis state in byte 4 and the little-endian 32-bit error word of
    bytes 0-3; the flags byte (byte 5) and any byte after it do not reach
    the result. *)
Theorem get_heartbeat_decodes (node_id : N) (w : World) (msg : Message)
    (w' : World) (b0 b1 b2 b3 axis_state flags : N) (tail : list N) :
  wait_for_message node_id 0x001 3000 w = (Ok (Some msg), w') ->
  data msg = b0 :: b1 :: b2 :: b3 :: axis_state :: flags :: tail ->
  get_heartbeat node_id w =
  (Ok (Some axis_state,
       Some (b0 + 2 ^ 8 * b1 + 2 ^ 16 * b2 + 2 ^ 24 * b3)), w').
Proof.
  intros Hw Hd. rewrite get_heartbeat_run, Hw, Hd.
  unfold get_item, unpack_I, slice.
  cbn [nth_error Nat.sub skipn firstn length Nat.eqb].
  rewrite le_value_4. reflexivity.
Qed.

Lemma get_heartbeat_decodes_witness :
  get_heartbeat 1
    (mkWorld 0 [(100, Some (mkMessage 0x21 [4; 1; 0; 0; 8; 255; 7; 7] false))] [])
  = (Ok (Some 8, Some (4 + 2 ^ 8 * 1 + 2 ^ 16 * 0 + 2 ^ 24 * 0)),
     mkWorld 100 [] []).
Proof.
  apply (get_heartbeat_decodes 1 _
           (mkMessage 0x21 [4; 1; 0; 0; 8; 255; 7; 7] false) _
           4 1 0 0 8 255 [7; 7]); reflexivity.
Defined.

(** ** Time *)

Lemma recv_prompt (w : World) :
  forallb prompt (inbox w) = true ->
  now (snd (recv 1000 w)) <= now w + 1000 /\
  forallb prompt (inbox (snd (recv 1000 w))) = true.
Proof.
  unfold recv, set_now. destruct (inbox w) as [|[dt m] rest]; cbn [snd now inbox].
  - intros _. split; [lia|reflexivity].
  - cbn [forallb]. intros H. apply andb_true_iff in H as [Hdt Hrest].
    unfold prompt in Hdt. cbn [fst] in Hdt. apply N.leb_le in Hdt.
    split; [lia|exact Hrest].
Qed.

(** A wait ends less than one receive past its deadline. *)
Lemma wait_loop_upper (can_id start_time timeout : N) (w : World) :
  forallb prompt (inbox w) = true ->
  now w < start_time + timeout + 1000 ->
  now (snd (wait_loop can_id start_time timeout w)) < start_time + timeout + 1000.
Proof.
  funelim (wait_loop can_id start_time timeout w); cbn [snd]; intros Hp Hlt;
    try assumption;
    match goal with
    | Hr : recv 1000 ?w = (_, ?w') |- _ =>
        destruct (recv_prompt w Hp) as [Hn Hp']; rewrite Hr in Hn, Hp';
        cbn [snd] in Hn, Hp'
    end;
    match goal with
    | G : (_ <? _) = true |- _ => pose proof (proj1 (N.ltb_lt _ _) G) as Hg
    end;
    try (match goal with IH : _ -> _ -> _ |- _ => apply IH end;
         [assumption|]);
    lia.
Qed.

Lemma paces_ret {A : Type} (d : N) (a : A) : paces d (ret a).
Proof.
  intros w. cbn [ret snd]. split; [lia|]. split; [now exists []|]. lia.
Qed.

Lemma paces_lift {A : Type} (d : N) (r : result A) : paces d (lift r).
Proof.
  intros w. cbn [lift snd]. split; [lia|]. split; [now exists []|]. lia.
Qed.

Lemma paces_send_command (d node_id cmd_id : N) (payload : option (list N)) :
  paces d (send_command node_id cmd_id payload).
Proof.
  intros w. unfold send_command, bus_send. cbn [snd now inbox].
  split; [lia|]. split; [now exists []|]. lia.
Qed.

Lemma paces_time_sleep (d t : N) : t <= d -> paces d (time_sleep t).
Proof.
  intros Hd w. unfold time_sleep, set_now. cbn [snd now inbox].
  split; [lia|]. split; [now exists []|]. lia.
Qed.

Lemma paces_wait_for_message (d node_id cmd_id timeout : N) :
  timeout + 1000 <= d -> paces d (wait_for_message node_id cmd_id timeout).
Proof.
  intros Hd w. unfold wait_for_message. cbn [snd].
  split; [apply wait_loop_now|]. split.
  - destruct (wait_loop_consumed (can_id_of node_id cmd_id) (now w) timeout w)
      as (c & Hc & _). now exists c.
  - intros Hp.
    pose proof (wait_loop_upper (can_id_of node_id cmd_id) (now w) timeout w Hp).
    lia.
Qed.

Lemma paces_bind {A B : Type} (d1 d2 d : N) (c : M A) (k : A -> M B) :
  paces d1 c -> (forall a, paces d2 (k a)) -> d1 + d2 <= d ->
  paces d (bind c k).
Proof.
  intros Hc Hk Hd w. unfold bind.
  destruct (Hc w) as (Hn1 & (u1 & Hu1) & Hb1).
  destruct (c w) as [[a|e] w1]; cbn [snd] in *.
  - destruct (Hk a w1) as (Hn2 & (u2 & Hu2) & Hb2).
    split; [lia|]. split.
    + exists (u1 ++ u2). now rewrite <- app_assoc, <- Hu2.
    + intros Hp. specialize (Hb1 Hp).
      rewrite Hu1, forallb_app in Hp. apply andb_true_iff in Hp as [_ Hp].
      specialize (Hb2 Hp). lia.
  - split; [lia|]. split; [now exists u1|].
    intros Hp. specialize (Hb1 Hp). lia.
Qed.

(** The surveillance loop ends less than one wait and one receive past
    its limit. *)
Lemma poll_loop_paces (node_id start_time limit : N) (w : World) :
  now w <= now (snd (poll_loop node_id start_time limit w)) /\
  (exists used, inbox w = used ++ inbox (snd (poll_loop node_id start_time limit w))) /\
  (forallb prompt (inbox w) = true ->
   now w < start_time + limit + 2000 ->
   now (snd (poll_loop node_id start_time limit w)) < start_time + limit + 2000).
Proof.
  funelim (poll_loop node_id start_time limit w); cbn [snd];
    try (split; [lia|]; split; [now exists []|]; intros; assumption);
    pose proof (wait_loop_now (can_id_of node_id 1) (now w) 1000 w) as Hn;
    destruct (wait_loop_consumed (can_id_of node_id 1) (now w) 1000 w)
      as (c & Hcs & _);
    pose proof (wait_loop_upper (can_id_of node_id 1) (now w) 1000 w) as Hup;
    match goal with
    | G : (_ <? _) = true |- _ => pose proof (proj1 (N.ltb_lt _ _) G) as Hg
    end;
    try match goal with
      | IH : _ /\ _ /\ _ |- _ => destruct IH as (IHn & (u & IHu) & IHb)
      end.
  all: split; [lia|]; split.
  all: try (exists (c ++ u); rewrite <- app_assoc, <- IHu; exact Hcs).
  all: try (exists c; exact Hcs).
  all: intros Hp Hlt; specialize (Hup Hp);
    rewrite Hcs, forallb_app in Hp; apply andb_true_iff in Hp as [_ Hp].
  all: try (apply IHb; [exact Hp|]).
  all: lia.
Qed.

Lemma paces_calibration (d node_id state limit : N) :
  limit + 2000 <= d -> paces d (calibration node_id state limit).
Proof.
  intros Hd w.
  unfold calibration, bind, send_command, bus_send, time_time, ret.
  cbn [fst snd now inbox sent].
  set (w1 := mkWorld (now w) (inbox w) _).
  destruct (poll_loop_paces node_id (now w) limit w1) as (Hn & (u & Hu) & Hb).
  change (now w1) with (now w) in Hn, Hb.
  change (inbox w1) with (inbox w) in Hu, Hb.
  destruct (poll_loop node_id (now w) limit w1) as [[[|]|e] w2];
    cbn [negb snd now inbox] in *.
  all: split; [lia|]; split; [now exists u|].
  all: intros Hp; specialize (Hb Hp); lia.
Qed.

Lemma paces_get_heartbeat (node_id : N) : paces 4000 (get_heartbeat node_id).
Proof.
  unfold get_heartbeat.
  apply (paces_bind 4000 0); [now apply paces_wait_for_message| |reflexivity].
  intros [msg|]; [|apply paces_ret].
  repeat (apply (paces_bind 0 0); [apply paces_lift|intros|reflexivity]).
  apply paces_ret.
Qed.

Lemma paces_get_errors (node_id error_type : N) :
  paces 4000 (get_errors node_id error_type).
Proof.
  unfold get_errors.
  apply (paces_bind 0 4000); [apply paces_send_command|intros|reflexivity].
  apply (paces_bind 4000 0); [now apply paces_wait_for_message| |reflexivity].
  intros [msg|]; [|apply paces_ret].
  apply (paces_bind 0 0); [|intros; apply paces_ret|reflexivity].
  destruct (error_type =? 0); [|destruct (error_type =? 1)]; apply paces_lift.
Qed.

Lemma paces_get_encoder_estimates (node_id : N) :
  paces 4000 (get_encoder_estimates node_id).
Proof.
  unfold get_encoder_estimates.
  apply (paces_bind 0 4000); [apply paces_send_command|intros|reflexivity].
  apply (paces_bind 4000 0); [now apply paces_wait_for_message| |reflexivity].
  intros [msg|]; [|apply paces_ret].
  repeat (apply (paces_bind 0 0); [apply paces_lift|intros|reflexivity]).
  apply paces_ret.
Qed.

Lemma paces_save_and_reboot (node_id : N) :
  paces 6000 (save_and_reboot node_id).
Proof.
  unfold save_and_reboot.
  apply (paces_bind 0 6000); [apply paces_send_command|intros|reflexivity].
  apply (paces_bind 3000 3000); [now apply paces_time_sleep|intros|reflexivity].
  apply (paces_bind 0 3000); [apply paces_send_command|intros|reflexivity].
  now apply paces_time_sleep.
Qed.

Lemma paces_full_diagnostic (node_id : N) :
  paces 65000 (full_diagnostic node_id).
Proof.
  unfold full_diagnostic.
  apply (paces_bind 4000 61000); [apply paces_get_heartbeat| |reflexivity].
  intros [[state|] error]; [|apply paces_ret].
  apply (paces_bind 4000 57000); [apply paces_get_errors|intros|reflexivity].
  apply (paces_bind 4000 53000); [apply paces_get_errors|intros|reflexivity].
  apply (paces_bind 4000 49000); [apply paces_get_errors|intros|reflexivity].
  apply (paces_bind 4000 45000);
    [apply paces_get_encoder_estimates|intros|reflexivity].
  apply (paces_bind 17000 28000);
    [rewrite test_motor_calibration_eq; now apply paces_calibration
    |intros|reflexivity].
  apply (paces_bind 22000 6000);
    [rewrite test_encoder_calibration_eq; now apply paces_calibration
    |intros|reflexivity].
  apply (paces_bind 6000 0); [apply paces_save_and_reboot|intros|reflexivity].
  apply paces_ret.
Qed.

Lemma paces_operation (node_id : N) (op : operation) (w : World) :
  now w <= now (perform node_id op w) /\
  (exists used, inbox w = used ++ inbox (perform node_id op w)) /\
  (forallb prompt (inbox w) = true ->
   now (perform node_id op w) <= now w + time_budget op).
Proof.
  destruct op; cbn [perform time_budget].
  - apply paces_get_heartbeat.
  - apply paces_get_errors.
  - rewrite test_motor_calibration_eq. now apply paces_calibration.
  - rewrite test_encoder_calibration_eq. now apply paces_calibration.
  - apply paces_get_encoder_estimates.
  - apply paces_save_and_reboot.
  - apply paces_full_diagnostic.
Qed.

(** X3. When no receive blocks for more than its timeout of one second,
    [wait_for_message] comes back less than [timeout] plus one second after
    it was called, with a frame or without; and with a [timeout] of 0 it
    gives up at once and leaves the bus unread. *)
Theorem wait_for_message_duration (node_id cmd_id timeout : N) (w : World) :
  (forallb prompt (inbox w) = true ->
   now (snd (wait_for_message node_id cmd_id timeout w)) <
     now w + timeout + 1000) /\
  wait_for_message node_id cmd_id 0 w = (Ok None, w).
Proof.
  split.
  - intros Hp. unfold wait_for_message. cbn [snd].
    apply wait_loop_upper; [exact Hp|lia].
  - unfold wait_for_message. rewrite wait_loop_eq.
    replace (now w - now w <? 0) with false
      by (symmetry; apply N.ltb_ge; lia).
    reflexivity.
Qed.

Lemma wait_for_message_duration_witness :
  now (snd (wait_for_message 1 0x001 3000 busy_without_heartbeat)) <
    now busy_without_heartbeat + 3000 + 1000 /\
  wait_for_message 1 0x001 0 busy_without_heartbeat =
    (Ok None, busy_without_heartbeat).
Proof.
  destruct (wait_for_message_duration 1 0x001 3000 busy_without_heartbeat)
    as [Hup Hzero].
  split; [apply Hup; reflexivity|exact Hzero].
Defined.

(** X4. When no receive blocks for more than its timeout of one second,
    every operation ends within its time budget, however it ends: 4 s for
    the heartbeat, an error query and the encoder estimates, 17 s for the
    motor calibration test, 22 s for the encoder calibration test, 6 s
    for save and reboot, and 65 s for the full diagnostic. *)
Theorem operations_end_in_time (node_id : N) (op : operation) (w : World) :
  forallb prompt (inbox w) = true ->
  now (perform node_id op w) <= now w + time_budget op.
Proof.
  intros Hp. destruct (paces_operation node_id op w) as (_ & _ & Hb).
  exact (Hb Hp).
Qed.

Lemma operations_end_in_time_witness :
  now (perform 1 FullDiagnostic one_heartbeat) <=
    now one_heartbeat + time_budget FullDiagnostic.
Proof.
  apply (operations_end_in_time 1 FullDiagnostic one_heartbeat). reflexivity.
Defined.

(** ** Waiting longer *)

(** X5. A frame that [wait_for_message] returns with some timeout is
    returned with every longer timeout too, in the same world: waiting
    longer never loses or changes an answer. *)
Theorem wait_for_message_longer_timeout (node_id cmd_id timeout timeout' : N)
    (w : World) (f : Message) (w' : World) :
  wait_for_message node_id cmd_id timeout w = (Ok (Some f), w') ->
  timeout <= timeout' ->
  wait_for_message node_id cmd_id timeout' w = (Ok (Some f), w').
Proof.
  unfold wait_for_message. intros Hw Hle.
  injection Hw as Hf Hw'.
  destruct (wait_loop_some_inv _ _ _ _ _ (N.le_refl _) Hf)
    as (pre & dt & rest & Hi & Hpre & Hid & Hlt).
  rewrite (wait_loop_hit _ _ _ pre w dt f rest Hi (N.le_refl _) Hpre Hid Hlt)
    in Hw'.
  rewrite (wait_loop_hit _ _ _ pre w dt f rest Hi (N.le_refl _) Hpre Hid)
    by lia.
  cbn [fst snd] in *. now rewrite Hw'.
Qed.

Lemma wait_for_message_longer_timeout_witness :
  wait_for_message 1 0x001 5000 busy_then_heartbeat =
    (Ok (Some (heartbeat_frame 8)), mkWorld 1000 [] []).
Proof.
  apply (wait_for_message_longer_timeout 1 0x001 1000 5000 busy_then_heartbeat);
    [reflexivity|vm_compute; discriminate].
Defined.

(** ** Save and reboot *)

Lemma before_save_command (node_id cmd_id : N) (d : list N) :
  cmd_id < 32 -> cmd_id <> 0x01F -> cmd_id <> 0x016 ->
  before_save node_id (mkMessage (can_id_of node_id cmd_id) d false).
Proof.
  intros Hc H1 H2. unfold before_save. cbn [arbitration_id].
  rewrite !can_id_split by lia. lia.
Qed.

Ltac before_save_tac :=
  repeat first
    [ apply emits_bind; [|intros]
    | apply emits_ret
    | apply emits_lift
    | apply emits_time_time
    | apply emits_wait_for_message
    | apply emits_poll_loop
    | apply emits_send_command; apply before_save_command; lia
    | match goal with
      | |- emits _ (match ?x with _ => _ end) => destruct x
      | |- emits _ (if ?x then _ else _) => destruct x
      end ].

Lemma before_save_get_errors (node_id error_type : N) :
  emits (before_save node_id) (get_errors node_id error_type).
Proof. unfold get_errors. before_save_tac. Qed.

Lemma before_save_get_encoder_estimates (node_id : N) :
  emits (before_save node_id) (get_encoder_estimates node_id).
Proof. unfold get_encoder_estimates. before_save_tac. Qed.

Lemma before_save_test_motor_calibration (node_id : N) :
  emits (before_save node_id) (test_motor_calibration node_id).
Proof. unfold test_motor_calibration. before_save_tac. Qed.

Lemma before_save_test_encoder_calibration (node_id : N) :
  emits (before_save node_id) (test_encoder_calibration node_id).
Proof. unfold test_encoder_calibration. before_save_tac. Qed.

Lemma ends_with_save_bind {A B : Type} (node_id : N) (c : M A) (k : A -> M B) :
  emits (before_save node_id) c ->
  (forall a, ends_with_save node_id (k a)) ->
  ends_with_save node_id (bind c k).
Proof.
  intros Hc Hk w. unfold bind.
  destruct (Hc w) as (new1 & E1 & F1).
  destruct (c w) as [[a|e] w1]; cbn [fst snd] in *.
  - destruct (Hk a w1) as (new2 & E2 & H2).
    exists (new1 ++ new2). rewrite E2, E1, app_assoc. split; [reflexivity|].
    destruct (fst (k a w1)).
    + destruct H2 as (pre & -> & Hpre). exists (new1 ++ pre).
      rewrite app_assoc. split; [reflexivity|]. apply Forall_app. now split.
    + apply Forall_app. now split.
  - now exists new1.
Qed.

Lemma ends_with_save_last {A : Type} (node_id : N) (a : A) :
  ends_with_save node_id (save_and_reboot node_id ;;; ret a).
Proof.
  intros w. unfold bind. rewrite save_and_reboot_run. cbn [fst snd ret sent].
  exists [plain_command node_id 0x01F; plain_command node_id 0x016].
  split; [now rewrite <- app_assoc|]. exists []. split; [reflexivity|constructor].
Qed.

(** X6. Save-configuration and reboot are sent only by a run of
    [full_diagnostic] that reaches its end.  A run that ends in an
    exception has sent neither of them.  A run that returns has either
    sent nothing at all, with the verdict [False] (no heartbeat), or has
    sent save-configuration and reboot as its last two frames, in this
    order, and neither of them earlier, whatever the verdict. *)
Theorem save_and_reboot_only_at_end (node_id : N) (w : World) :
  exists new,
    sent (snd (full_diagnostic node_id w)) = sent w ++ new /\
    match fst (full_diagnostic node_id w) with
    | Raise _ => Forall (before_save node_id) new
    | Ok ok =>
        (new = [] /\ ok = false) \/
        exists pre,
          new = pre ++ [plain_command node_id 0x01F;
                        plain_command node_id 0x016] /\
          Forall (before_save node_id) pre
    end.
Proof.
  pose proof (get_heartbeat_quiet node_id w) as Hq.
  destruct (get_heartbeat node_id w) as [[[[state|] error]|e] w1] eqn:Ehb;
    cbn [snd] in Hq.
  - rewrite (full_diagnostic_after_heartbeat _ _ _ _ _ Ehb).
    match goal with
    | |- context [?c w1] =>
        assert (Hrest : ends_with_save node_id c)
    end.
    { repeat (apply ends_with_save_bind;
              [first [ apply before_save_get_errors
                     | apply before_save_get_encoder_estimates
                     | apply before_save_test_motor_calibration
                     | apply before_save_test_encoder_calibration ]
              |intros]).
      apply ends_with_save_last. }
    destruct (Hrest w1) as (new & E & H). exists new.
    rewrite E, Hq. split; [reflexivity|].
    revert H. match goal with |- context [fst ?x] => destruct (fst x) end;
      intros H; [right|]; exact H.
  - assert (E : full_diagnostic node_id w = (Ok false, w1))
      by (unfold full_diagnostic; unfold bind at 1; now rewrite Ehb).
    rewrite E. cbn [fst snd]. exists []. rewrite Hq, app_nil_r.
    split; [reflexivity|]. now left.
  - assert (E : full_diagnostic node_id w = (Raise e, w1))
      by (unfold full_diagnostic; unfold bind at 1; now rewrite Ehb).
    rewrite E. cbn [fst snd]. exists []. rewrite Hq, app_nil_r.
    split; [reflexivity|constructor].
Qed.

(** ** Ranges of the decoded values *)

Lemma wait_for_message_member (node_id cmd_id timeout : N) (w : World)
    (msg : Message) (w' : World) :
  wait_for_message node_id cmd_id timeout w = (Ok (Some msg), w') ->
  exists dt, In (dt, Some msg) (inbox w).
Proof.
  unfold wait_for_message. intros [= Hf _].
  destruct (wait_loop_consumed (can_id_of node_id cmd_id) (now w) timeout w)
    as (c & Hc & _ & Hm).
  rewrite Hf in Hm. destruct Hm as (pre & dt & -> & _).
  exists dt. rewrite Hc. apply in_or_app. left. apply in_elt.
Qed.

Lemma byte_payload_returned (node_id cmd_id timeout : N) (w : World)
    (msg : Message) (w' : World) :
  forallb byte_payload (inbox w) = true ->
  wait_for_message node_id cmd_id timeout w = (Ok (Some msg), w') ->
  Forall (fun b => b < 256) (data msg).
Proof.
  intros Hb Hw. destruct (wait_for_message_member _ _ _ _ _ _ Hw) as [dt Hin].
  pose proof (proj1 (forallb_forall _ _) Hb _ Hin) as Hm.
  unfold byte_payload in Hm. cbn [snd] in Hm.
  apply Forall_forall. intros b Hinb.
  apply N.ltb_lt. exact (proj1 (forallb_forall _ _) Hm b Hinb).
Qed.

Lemma Forall_slice (P : N -> Prop) (d : list N) (lo hi : nat) :
  Forall P d -> Forall P (slice d lo hi).
Proof.
  intros H. unfold slice.
  rewrite <- (firstn_skipn lo d) in H. apply Forall_app in H as [_ H].
  rewrite <- (firstn_skipn (hi - lo) (skipn lo d)) in H.
  now apply Forall_app in H as [H _].
Qed.

Lemma unpack_I_bound (bs : list N) (v : N) :
  Forall (fun b => b < 256) bs -> unpack_I bs = Ok v -> v < 2 ^ 32.
Proof.
  intros Hb. unfold unpack_I.
  destruct (Nat.eqb_spec (length bs) 4) as [E|]; [|discriminate].
  intros [= <-]. pose proof (le_value_bound bs Hb) as H. now rewrite E in H.
Qed.

Lemma unpack_Q_bound (bs : list N) (v : N) :
  Forall (fun b => b < 256) bs -> unpack_Q bs = Ok v -> v < 2 ^ 64.
Proof.
  intros Hb. unfold unpack_Q.
  destruct (Nat.eqb_spec (length bs) 8) as [E|]; [|discriminate].
  intros [= <-]. pose proof (le_value_bound bs Hb) as H. now rewrite E in H.
Qed.

Lemma unpack_f_bound (bs : list N) (v : N) :
  Forall (fun b => b < 256) bs -> unpack_f bs = Ok v -> v < 2 ^ 32.
Proof. exact (unpack_I_bound bs v). Qed.

(** X7. On a bus whose payloads are made of bytes, what the primitives
    decode fits the width they read: an error code of [get_errors] is
    below [2^64], and below [2^32] for every type but the motor's (the 0
    of an unanswered query included); the axis state of [get_heartbeat]
    is a byte and its error word is below [2^32]; the two words of
    [get_encoder_estimates] are below [2^32]. *)
Theorem decoded_values_fit (node_id : N) (w : World) :
  forallb byte_payload (inbox w) = true ->
  (forall error_type v w',
      get_errors node_id error_type w = (Ok v, w') ->
      v < 2 ^ 64 /\ (error_type <> 1 -> v < 2 ^ 32)) /\
  (forall axis_state error w',
      get_heartbeat node_id w = (Ok (Some axis_state, Some error), w') ->
      axis_state < 2 ^ 8 /\ error < 2 ^ 32) /\
  (forall pos vel w',
      get_encoder_estimates node_id w = (Ok (Some pos, Some vel), w') ->
      pos < 2 ^ 32 /\ vel < 2 ^ 32).
Proof.
  intros Hb. split; [|split].
  - intros error_type v w'. rewrite get_errors_run.
    destruct (wait_for_message node_id 3 3000 (requested node_id error_type w))
      as [[[msg|]|e] w1] eqn:Hw; [| |discriminate].
    + pose proof (byte_payload_returned _ _ _
                    (requested node_id error_type w) _ _ Hb Hw) as Hd.
      assert (H32 : forall x, unpack_I (slice (data msg) 0 4) = Ok x -> x < 2 ^ 32)
        by (intros x; apply unpack_I_bound, Forall_slice, Hd).
      assert (H64 : forall x, unpack_Q (slice (data msg) 0 8) = Ok x -> x < 2 ^ 64)
        by (intros x; apply unpack_Q_bound, Forall_slice, Hd).
      assert (Hlt : 2 ^ 32 < 2 ^ 64) by (vm_compute; reflexivity).
      destruct (N.eqb_spec error_type 0) as [E0|E0];
        [|destruct (N.eqb_spec error_type 1) as [E1|E1]];
        intros [= Hv _].
      * specialize (H32 _ Hv). split; [lia|auto].
      * specialize (H64 _ Hv). split; [exact H64|]. intros Hne. now elim Hne.
      * specialize (H32 _ Hv). split; [lia|auto].
    + intros [= <- _]. split; [|intros _]; vm_compute; reflexivity.
  - intros axis_state error w'. rewrite get_heartbeat_run.
    destruct (wait_for_message node_id 1 3000 w) as [[[msg|]|e] w1] eqn:Hw;
      [| discriminate | discriminate].
    pose proof (byte_payload_returned _ _ _ _ _ _ Hb Hw) as Hd.
    destruct (get_item (data msg) 4) as [st|] eqn:E4; [|discriminate].
    destruct (get_item (data msg) 5) as [fl|]; [|discriminate].
    destruct (unpack_I (slice (data msg) 0 4)) as [err|] eqn:EI; [|discriminate].
    intros [= <- <- _]. split.
    + apply get_item_nth, nth_error_In in E4.
      exact (proj1 (Forall_forall _ _) Hd _ E4).
    + revert EI. apply unpack_I_bound, Forall_slice, Hd.
  - intros pos vel w'. rewrite get_encoder_estimates_run.
    destruct (wait_for_message node_id 9 3000 (estimates_requested node_id w))
      as [[[msg|]|e] w1] eqn:Hw; [| discriminate | discriminate].
    pose proof (byte_payload_returned _ _ _
                  (estimates_requested node_id w) _ _ Hb Hw) as Hd.
    destruct (unpack_f (slice (data msg) 0 4)) as [p|] eqn:Ep; [|discriminate].
    destruct (unpack_f (slice (data msg) 4 8)) as [q|] eqn:Eq; [|discriminate].
    intros [= <- <- _]. split.
    + revert Ep. apply unpack_f_bound, Forall_slice, Hd.
    + revert Eq. apply unpack_f_bound, Forall_slice, Hd.
Qed.

Lemma decoded_values_fit_witness :
  255 < 2 ^ 8 /\ 4294967295 < 2 ^ 32.
Proof.
  destruct (decoded_values_fit 1
              (mkWorld 0 [(100, Some (mkMessage 0x21
                                        [255; 255; 255; 255; 255; 0; 0; 0]
                                        false))] [])
              eq_refl)
    as (_ & Hhb & _).
  apply (Hhb 255 4294967295 (mkWorld 100 [] [])). reflexivity.
Defined.

(** ** What the verdict does not read *)

(** X8. The verdict of [full_diagnostic] does not read the heartbeat it
    waits for: two runs that differ only in the payload (and the
    identifier kind) of a first heartbeat frame of 6 bytes or more, with
    any axis state and any error word in it, end with the same result in
    the same world. *)
Theorem full_diagnostic_ignores_heartbeat_payload (node_id t dt : N)
    (rest : list (N * option Message)) (sent0 : list Message)
    (d1 d2 : list N) (x1 x2 : bool) :
  (6 <= length d1)%nat -> (6 <= length d2)%nat ->
  full_diagnostic node_id
    (mkWorld t ((dt, Some (mkMessage (can_id_of node_id 0x001) d1 x1)) :: rest)
             sent0) =
  full_diagnostic node_id
    (mkWorld t ((dt, Some (mkMessage (can_id_of node_id 0x001) d2 x2)) :: rest)
             sent0).
Proof.
  intros H1 H2.
  assert (Hhb : forall d x, (6 <= length d)%nat ->
            exists state error,
              get_heartbeat node_id
                (mkWorld t ((dt, Some (mkMessage (can_id_of node_id 1) d x))
                              :: rest) sent0) =
              (Ok (Some state, Some error),
               mkWorld (t + elapsed [] + dt) rest sent0)).
  { intros d x Hd. rewrite get_heartbeat_run. unfold wait_for_message.
    rewrite (wait_loop_hit (can_id_of node_id 1) _ 3000 []
               _ dt (mkMessage (can_id_of node_id 1) d x) rest);
      [|reflexivity|cbn [now]; lia|constructor|reflexivity
       |cbn [now elapsed]; lia].
    cbn [fst snd data now sent].
    destruct (get_item_long d 4) as [st ->]; [lia|].
    destruct (get_item_long d 5) as [fl ->]; [lia|].
    rewrite unpack_I_slice by lia. now eexists _, _. }
  destruct (Hhb d1 x1 H1) as (s1 & e1 & E1).
  destruct (Hhb d2 x2 H2) as (s2 & e2 & E2).
  rewrite (full_diagnostic_after_heartbeat _ _ _ _ _ E1).
  rewrite (full_diagnostic_after_heartbeat _ _ _ _ _ E2).
  reflexivity.
Qed.

Lemma full_diagnostic_ignores_heartbeat_payload_witness :
  full_diagnostic 1
    (mkWorld 0 [(100, Some (mkMessage (can_id_of 1 0x001)
                              [0; 0; 0; 0; 1; 0; 0; 0] false))] []) =
  full_diagnostic 1
    (mkWorld 0 [(100, Some (mkMessage (can_id_of 1 0x001)
                              [255; 0; 0; 128; 8; 3] false))] []).
Proof.
  apply (full_diagnostic_ignores_heartbeat_payload 1 0 100 [] []);
    cbn [length]; lia.
Defined.

(** ** A calibration test that raises *)

Lemma get_item_raise (d : list N) (i : nat) (e : exn) :
  get_item d i = Raise e -> e = IndexError.
Proof.
  unfold get_item. destruct (nth_error d i); [discriminate|]. now intros [= <-].
Qed.

Lemma poll_loop_raise (node_id start_time limit : N) (w : World) (e : exn) :
  fst (poll_loop node_id start_time limit w) = Raise e -> e = IndexError.
Proof.
  funelim (poll_loop node_id start_time limit w); cbn [fst];
    try discriminate; auto.
  intros [= <-].
  match goal with G : get_item _ _ = Raise _ |- _ =>
    exact (get_item_raise _ _ _ G) end.
Qed.

Lemma calibration_raise (node_id state limit : N) (w : World) (e : exn)
    (w' : World) :
  calibration node_id state limit w = (Raise e, w') ->
  e = IndexError /\ sent w' = sent w ++ [axis_state_command node_id state].
Proof.
  unfold calibration, bind, send_command, bus_send, time_time, ret.
  cbn [fst snd now inbox sent]. fold (can_id_of node_id 7).
  set (w1 := mkWorld (now w) (inbox w) _).
  pose proof (poll_loop_raise node_id (now w) limit w1) as He.
  pose proof (poll_loop_sent node_id (now w) limit w1) as Hs.
  destruct (poll_loop node_id (now w) limit w1) as [[[|]|e1] w2];
    cbn [negb fst snd] in *; try discriminate.
  intros [= <- <-]. split; [now apply He|exact Hs].
Qed.

(** The surveillance loop written as the one equation it satisfies. *)
Lemma poll_loop_eq (node_id start_time limit : N) (w : World) :
  poll_loop node_id start_time limit w =
  if now w - start_time <? limit
  then match wait_for_message node_id 0x001 1000 w with
       | (Raise e, w') => (Raise e, w')
       | (Ok None, w') => poll_loop node_id start_time limit w'
       | (Ok (Some msg), w') =>
           match get_item (data msg) 4 with
           | Raise e => (Raise e, w')
           | Ok axis_state =>
               if axis_state =? 1
               then (Ok true, w')
               else poll_loop node_id start_time limit w'
           end
       end
  else (Ok false, w).
Proof.
  funelim (poll_loop node_id start_time limit w); unfold wait_for_message;
    repeat match goal with
           | G : (_ <? _) = _ |- _ => rewrite G
           | G : (_ =? _) = _ |- _ => rewrite G
           | G : get_item _ _ = _ |- _ => rewrite G
           | G : Ok (fst _) = Ok _ |- _ => injection G as G; rewrite G
           | G : Ok (fst _) = Raise _ |- _ => discriminate G
           end; reflexivity.
Qed.

(** The heartbeat that comes first and is too short for an axis state
    makes the surveillance loop raise at once. *)
Lemma poll_loop_short_heartbeat (node_id limit dt : N) (w : World)
    (f : Message) rest :
  0 < limit ->
  inbox w = (dt, Some f) :: rest ->
  arbitration_id f = can_id_of node_id 1 ->
  (length (data f) < 5)%nat ->
  fst (poll_loop node_id (now w) limit w) = Raise IndexError.
Proof.
  intros Hl Hi Hid Hlen.
  rewrite poll_loop_eq.
  replace (now w - now w <? limit) with true
    by (symmetry; apply N.ltb_lt; lia).
  unfold wait_for_message.
  rewrite (wait_loop_hit _ _ _ [] w dt f rest); try assumption;
    [|lia|constructor|cbn [elapsed]; lia].
  cbn [fst snd]. rewrite get_item_short by lia. reflexivity.
Qed.

(** X9. A calibration test that ends in an exception has sent the
    command that starts the calibration and nothing else: the corrective
    set-axis-state(Idle) is not sent, and the exception is the
    [IndexError] of a heartbeat too short to hold the axis state.  This
    is what happens when the first frame received is such a heartbeat,
    one of fewer than 5 bytes. *)
Theorem calibration_exception_skips_corrective (node_id : N) (w : World) :
  (forall e w',
      test_motor_calibration node_id w = (Raise e, w') ->
      e = IndexError /\ sent w' = sent w ++ [axis_state_command node_id 4]) /\
  (forall e w',
      test_encoder_calibration node_id w = (Raise e, w') ->
      e = IndexError /\ sent w' = sent w ++ [axis_state_command node_id 7]) /\
  (forall dt f rest,
      inbox w = (dt, Some f) :: rest ->
      arbitration_id f = can_id_of node_id 0x001 ->
      (length (data f) < 5)%nat ->
      fst (test_motor_calibration node_id w) = Raise IndexError /\
      fst (test_encoder_calibration node_id w) = Raise IndexError).
Proof.
  split; [|split].
  - intros e w'. rewrite test_motor_calibration_eq. apply calibration_raise.
  - intros e w'. rewrite test_encoder_calibration_eq. apply calibration_raise.
  - intros dt f rest Hi Hid Hlen.
    assert (H : forall state limit, 0 < limit ->
              fst (calibration node_id state limit w) = Raise IndexError).
    { intros state limit Hl.
      unfold calibration, bind, send_command, bus_send, time_time, ret.
      cbn [fst snd now inbox sent].
      set (w1 := mkWorld (now w) (inbox w) _).
      pose proof (poll_loop_short_heartbeat node_id limit dt w1 f rest
                    Hl Hi Hid Hlen) as Hp.
      change (now w1) with (now w) in Hp.
      destruct (poll_loop node_id (now w) limit w1) as [[b|e] w2];
        cbn [fst] in *; [discriminate|]. exact Hp. }
    rewrite test_motor_calibration_eq, test_encoder_calibration_eq.
    split; apply H; lia.
Qed.

Lemma calibration_exception_skips_corrective_witness :
  fst (test_motor_calibration 1
         (mkWorld 0 [(100, Some (mkMessage 0x21 [0; 0; 0; 0] false))] []))
    = Raise IndexError /\
  sent (snd (test_motor_calibration 1
         (mkWorld 0 [(100, Some (mkMessage 0x21 [0; 0; 0; 0] false))] [])))
    = [] ++ [axis_state_command 1 4].
Proof.
  destruct (calibration_exception_skips_corrective 1
              (mkWorld 0 [(100, Some (mkMessage 0x21 [0; 0; 0; 0] false))] []))
    as (Hraise & _ & Hshort).
  split.
  - apply (Hshort 100 (mkMessage 0x21 [0; 0; 0; 0] false) []);
      [reflexivity|reflexivity|cbn; lia].
  - apply (Hraise IndexError (mkWorld 100 [] [axis_state_command 1 4])).
    reflexivity.
Defined.

(** ** What a wait depends on *)

(** Two waits that meet the same script at the same point of their windows
    go the same way. *)
Lemma wait_loop_shift (can_id start_time timeout : N) (w : World) :
  forall (start_time' : N) (v : World),
    inbox w = inbox v ->
    start_time <= now w -> start_time' <= now v ->
    now w - start_time = now v - start_time' ->
    fst (wait_loop can_id start_time timeout w) =
      fst (wait_loop can_id start_time' timeout v) /\
    inbox (snd (wait_loop can_id start_time timeout w)) =
      inbox (snd (wait_loop can_id start_time' timeout v)) /\
    now (snd (wait_loop can_id start_time timeout w)) - start_time =
      now (snd (wait_loop can_id start_time' timeout v)) - start_time'.
Proof.
  funelim (wait_loop can_id start_time timeout w);
    intros s' v Hi Hs Hs' Ht; rewrite (wait_loop_eq can_id s' timeout v).
  - match goal with G : (_ <? _) = false |- _ => rewrite <- Ht, G end.
    cbn [fst snd]. auto.
  - match goal with G : (_ <? _) = true |- _ => rewrite <- Ht, G end.
    destruct (recv_step _ _ _ _ Hr)
      as [_ [(Hw & _ & Hw' & Hn)|(dt & Hw & Hn)]].
    + rewrite (recv_nil 1000 v) by congruence.
      apply H; unfold set_now; cbn [inbox now]; [congruence|lia|lia|lia].
    + rewrite (recv_cons 1000 dt None (inbox w') v) by congruence.
      apply H; cbn [inbox now]; [reflexivity|lia|lia|lia].
  - match goal with G : (_ <? _) = true |- _ => rewrite <- Ht, G end.
    destruct (recv_step _ _ _ _ Hr) as [_ [(_ & Hm & _)|(dt & Hw & Hn)]];
      [discriminate|].
    rewrite (recv_cons 1000 dt (Some msg) (inbox w') v) by congruence.
    match goal with G : (_ =? _) = true |- _ => rewrite G end.
    cbn [fst snd inbox now]. repeat split. lia.
  - match goal with G : (_ <? _) = true |- _ => rewrite <- Ht, G end.
    destruct (recv_step _ _ _ _ Hr) as [_ [(_ & Hm & _)|(dt & Hw & Hn)]];
      [discriminate|].
    rewrite (recv_cons 1000 dt (Some msg) (inbox w') v) by congruence.
    match goal with G : (_ =? _) = false |- _ => rewrite G end.
    apply H; cbn [inbox now]; [reflexivity|lia|lia|lia].
Qed.

(** X10. What [wait_for_message] returns depends on the bus alone: started
    at another time of day, or after other frames have been sent, it
    returns the same frame or the same timeout on the same script, leaves
    the same rest of the script, and takes the same time. *)
Theorem wait_for_message_reads_bus_only (node_id cmd_id timeout : N)
    (w v : World) :
  inbox w = inbox v ->
  fst (wait_for_message node_id cmd_id timeout w) =
    fst (wait_for_message node_id cmd_id timeout v) /\
  inbox (snd (wait_for_message node_id cmd_id timeout w)) =
    inbox (snd (wait_for_message node_id cmd_id timeout v)) /\
  now (snd (wait_for_message node_id cmd_id timeout w)) - now w =
    now (snd (wait_for_message node_id cmd_id timeout v)) - now v.
Proof.
  intros Hi. unfold wait_for_message. cbn [fst snd].
  destruct (wait_loop_shift (can_id_of node_id cmd_id) (now w) timeout w
              (now v) v Hi (N.le_refl _) (N.le_refl _)) as (Hf & Hb & Hn);
    [lia|].
  now rewrite Hf.
Qed.

Lemma wait_for_message_reads_bus_only_witness :
  fst (wait_for_message 1 0x001 3000 busy_then_heartbeat) =
    fst (wait_for_message 1 0x001 3000
           (mkWorld 777 (inbox busy_then_heartbeat) [plain_command 1 0x009])) /\
  inbox (snd (wait_for_message 1 0x001 3000 busy_then_heartbeat)) =
    inbox (snd (wait_for_message 1 0x001 3000
           (mkWorld 777 (inbox busy_then_heartbeat) [plain_command 1 0x009]))) /\
  now (snd (wait_for_message 1 0x001 3000 busy_then_heartbeat))
    - now busy_then_heartbeat =
    now (snd (wait_for_message 1 0x001 3000
           (mkWorld 777 (inbox busy_then_heartbeat) [plain_command 1 0x009])))
    - 777.
Proof.
  apply (wait_for_message_reads_bus_only 1 0x001 3000 busy_then_heartbeat
           (mkWorld 777 (inbox busy_then_heartbeat) [plain_command 1 0x009])).
  reflexivity.
Defined.

(** X11. [get_errors] does not match the reply to the type it asked for:
    on the same bus, queries for any two error types other than 1 (motor)
    return the same result, the first [0x003] frame decoded as a 32-bit
    word.  The type chooses between the 32-bit and the 64-bit decoding and
    nothing else. *)
Theorem get_errors_type_selects_width_only (node_id type1 type2 : N)
    (w : World) :
  type1 <> 1 -> type2 <> 1 ->
  fst (get_errors node_id type1 w) = fst (get_errors node_id type2 w).
Proof.
  intros H1 H2. rewrite !get_errors_run.
  pose proof (wait_loop_shift (can_id_of node_id 3) (now w) 3000
                (requested node_id type1 w) (now w) (requested node_id type2 w)
                eq_refl (N.le_refl _) (N.le_refl _) eq_refl) as (Hf & _ & _).
  unfold wait_for_message. cbn [now requested] in *. rewrite <- Hf.
  destruct (fst (wait_loop _ _ _ (requested node_id type1 w))) as [msg|];
    [|reflexivity].
  apply N.eqb_neq in H1, H2. rewrite H1, H2.
  destruct (type1 =? 0), (type2 =? 0); reflexivity.
Qed.

Lemma get_errors_type_selects_width_only_witness :
  fst (get_errors 1 0
         (mkWorld 0 [(100, Some (mkMessage 0x23 [5; 0; 0; 0; 9; 9; 9; 9] false))] []))
  = fst (get_errors 1 4
         (mkWorld 0 [(100, Some (mkMessage 0x23 [5; 0; 0; 0; 9; 9; 9; 9] false))] [])).
Proof.
  apply (get_errors_type_selects_width_only 1 0 4); discriminate.
Defined.

(** ** A run that passes *)

Lemma bind_ok {A B : Type} (c : M A) (k : A -> M B) (w : World) (b : B)
    (w' : World) :
  bind c k w = (Ok b, w') ->
  exists a w1, c w = (Ok a, w1) /\ k a w1 = (Ok b, w').
Proof.
  unfold bind. destruct (c w) as [[a|e] w1]; [|discriminate].
  intros H. now exists a, w1.
Qed.

(** X12. A run of [full_diagnostic] that returns [True] has sent exactly
    eight frames, in this order: the three error queries (types 0, 1, 4),
    the encoder-estimates query, the start of the motor calibration, the
    start of the encoder calibration, save-configuration and reboot; no
    corrective Idle command is among them. *)
Theorem passing_run_frames (node_id : N) (w : World) :
  fst (full_diagnostic node_id w) = Ok true ->
  sent (snd (full_diagnostic node_id w)) =
  sent w ++
  [errors_request node_id 0; errors_request node_id 1;
   errors_request node_id 4; plain_command node_id 0x009;
   axis_state_command node_id 4; axis_state_command node_id 7;
   plain_command node_id 0x01F; plain_command node_id 0x016].
Proof.
  intros Ht.
  destruct (full_diagnostic node_id w) as [r w'] eqn:E.
  cbn [fst snd] in *. subst r.
  pose proof (get_heartbeat_quiet node_id w) as Hq.
  destruct (get_heartbeat node_id w) as [[[[state|] error]|e] w1] eqn:Ehb;
    cbn [snd] in Hq.
  - rewrite (full_diagnostic_after_heartbeat _ _ _ _ _ Ehb) in E.
    apply bind_ok in E as (se & w2 & E2 & E).
    apply bind_ok in E as (me & w3 & E3 & E).
    apply bind_ok in E as (ee & w4 & E4 & E).
    apply bind_ok in E as (pv & w5 & E5 & E).
    apply bind_ok in E as (mok & w6 & E6 & E).
    apply bind_ok in E as (eok & w7 & E7 & E).
    apply bind_ok in E as (u & w8 & E8 & E).
    unfold ret in E. injection E as Hv <-.
    apply andb_true_iff in Hv as [Hv ->].
    apply andb_true_iff in Hv as [_ ->].
    rewrite save_and_reboot_run in E8. injection E8 as _ <-. cbn [sent].
    rewrite test_motor_calibration_eq in E6.
    rewrite test_encoder_calibration_eq in E7.
    rewrite (calibration_sent _ _ _ _ _ _ E7), (calibration_sent _ _ _ _ _ _ E6).
    pose proof (get_encoder_estimates_sent node_id w4) as S5.
    pose proof (get_errors_sent node_id 4 w3) as S4.
    pose proof (get_errors_sent node_id 1 w2) as S3.
    pose proof (get_errors_sent node_id 0 w1) as S2.
    rewrite E5 in S5. rewrite E4 in S4. rewrite E3 in S3. rewrite E2 in S2.
    cbn [snd] in *. rewrite S5, S4, S3, S2, Hq.
    repeat rewrite <- app_assoc. reflexivity.
  - unfold full_diagnostic in E. unfold bind at 1 in E. rewrite Ehb in E.
    discriminate E.
  - unfold full_diagnostic in E. unfold bind at 1 in E. rewrite Ehb in E.
    discriminate E.
Qed.

Lemma passing_run_frames_witness :
  sent (snd (full_diagnostic 1 answers_no_query)) =
  sent answers_no_query ++
  [errors_request 1 0; errors_request 1 1;
   errors_request 1 4; plain_command 1 0x009;
   axis_state_command 1 4; axis_state_command 1 7;
   plain_command 1 0x01F; plain_command 1 0x016].
Proof.
  apply (passing_run_frames 1 answers_no_query). vm_compute. reflexivity.
Defined.

(** ** Queries that go unanswered *)

Lemma forallb_suffix {A : Type} (p : A -> bool) (l used rest : list A) :
  l = used ++ rest -> forallb p l = true -> forallb p rest = true.
Proof.
  intros -> H. rewrite forallb_app in H. now apply andb_true_iff in H.
Qed.

(** Without a reply on the bus, an error query returns 0. *)
Lemma get_errors_unanswered (node_id error_type : N) (w : World) :
  forallb (no_errors_reply node_id) (inbox w) = true ->
  exists w',
    get_errors node_id error_type w = (Ok 0, w') /\
    forallb (no_errors_reply node_id) (inbox w') = true.
Proof.
  intros Hno.
  destruct (paces_get_errors node_id error_type w) as (_ & (used & Hu) & _).
  rewrite get_errors_run in *. unfold wait_for_message in *.
  assert (Hmiss : fst (wait_loop (can_id_of node_id 3)
                         (now (requested node_id error_type w)) 3000
                         (requested node_id error_type w)) = None).
  { apply (wait_loop_miss _ _ _ (inbox w)); [reflexivity|lia|].
    intros pre e rest Hi _.
    assert (Hin : In e (inbox w)) by (rewrite Hi; apply in_elt).
    pose proof (proj1 (forallb_forall _ _) Hno e Hin) as He.
    unfold no_errors_reply in He. now apply negb_true_iff in He. }
  rewrite Hmiss in *. cbn [snd] in Hu.
  eexists. split; [reflexivity|]. exact (forallb_suffix _ _ _ _ Hu Hno).
Qed.

(** X13. An error query that nobody answers counts as "no error".  On a
    bus of full-width frames that carries no reply to a get-errors query,
    once the heartbeat is received the three queries return 0, the later
    steps run, and the verdict of [full_diagnostic] is decided by the two
    calibration tests alone. *)
Theorem unanswered_queries_pass (node_id : N) (w : World)
    (state error : N) (w1 : World) :
  forallb full_width (inbox w) = true ->
  forallb (no_errors_reply node_id) (inbox w) = true ->
  get_heartbeat node_id w = (Ok (Some state, Some error), w1) ->
  exists w2 w3 w4 pv w5 motor_ok w6 encoder_ok w7,
    get_errors node_id 0 w1 = (Ok 0, w2) /\
    get_errors node_id 1 w2 = (Ok 0, w3) /\
    get_errors node_id 4 w3 = (Ok 0, w4) /\
    get_encoder_estimates node_id w4 = (Ok pv, w5) /\
    test_motor_calibration node_id w5 = (Ok motor_ok, w6) /\
    test_encoder_calibration node_id w6 = (Ok encoder_ok, w7) /\
    fst (full_diagnostic node_id w) = Ok (motor_ok && encoder_ok).
Proof.
  intros Hfw Hno Ehb.
  destruct (paces_get_heartbeat node_id w) as (_ & (used & Hu) & _).
  rewrite Ehb in Hu. cbn [snd] in Hu.
  pose proof (forallb_suffix _ _ _ _ Hu Hfw) as Hfw1.
  pose proof (forallb_suffix _ _ _ _ Hu Hno) as Hno1.
  destruct (get_errors_unanswered node_id 0 w1 Hno1) as (w2 & E2 & Hno2).
  destruct (get_errors_full_width node_id 0 w1 Hfw1) as (v2 & w2' & E2' & Hfw2 & _).
  rewrite E2 in E2'. injection E2' as _ <-.
  destruct (get_errors_unanswered node_id 1 w2 Hno2) as (w3 & E3 & Hno3).
  destruct (get_errors_full_width node_id 1 w2 Hfw2) as (v3 & w3' & E3' & Hfw3 & _).
  rewrite E3 in E3'. injection E3' as _ <-.
  destruct (get_errors_unanswered node_id 4 w3 Hno3) as (w4 & E4 & Hno4).
  destruct (get_errors_full_width node_id 4 w3 Hfw3) as (v4 & w4' & E4' & Hfw4 & _).
  rewrite E4 in E4'. injection E4' as _ <-.
  destruct (get_encoder_estimates_full_width node_id w4 Hfw4)
    as (pv & w5 & E5 & Hfw5 & _).
  destruct (calibration_full_width node_id 4 15000 w5 Hfw5)
    as (mok & w6 & E6 & Hfw6 & _).
  destruct (calibration_full_width node_id 7 20000 w6 Hfw6)
    as (eok & w7 & E7 & _ & _).
  rewrite <- test_motor_calibration_eq in E6.
  rewrite <- test_encoder_calibration_eq in E7.
  exists w2, w3, w4, pv, w5, mok, w6, eok, w7.
  repeat (split; [assumption|]).
  rewrite (full_diagnostic_after_heartbeat _ _ _ _ _ Ehb).
  unfold bind at 1. rewrite E2. unfold bind at 1. rewrite E3.
  unfold bind at 1. rewrite E4. unfold bind at 1. rewrite E5.
  unfold bind at 1. rewrite E6. unfold bind at 1. rewrite E7.
  unfold bind at 1. rewrite save_and_reboot_run. reflexivity.
Qed.

Lemma unanswered_queries_pass_witness :
  exists w2 w3 w4 pv w5 motor_ok w6 encoder_ok w7,
    get_errors 1 0 (mkWorld 100 (tl (inbox answers_no_query)) []) = (Ok 0, w2) /\
    get_errors 1 1 w2 = (Ok 0, w3) /\
    get_errors 1 4 w3 = (Ok 0, w4) /\
    get_encoder_estimates 1 w4 = (Ok pv, w5) /\
    test_motor_calibration 1 w5 = (Ok motor_ok, w6) /\
    test_encoder_calibration 1 w6 = (Ok encoder_ok, w7) /\
    fst (full_diagnostic 1 answers_no_query) = Ok (motor_ok && encoder_ok).
Proof.
  apply (unanswered_queries_pass 1 answers_no_query 1 0); reflexivity.
Defined.
